(** * PowerPoint-to-PDF converter: the upload server and the browser form

    A shallow embedding of [server/src/server.ts] (the Express route
    [POST /api/convert], its multer upload filter and [cleanupFiles]) and of
    the Angular client ([ConverterComponent], [FileUploadService],
    [ConversionService]), with the properties of the specification stated
    and proved over it. *)

From Stdlib Require Import Bool Ascii String List Arith NArith ZArith Lia.
From Stdlib Require Import DecimalString DecimalN.
Import ListNotations.

Local Open Scope string_scope.

(* ================================================================== *)
(** ** JavaScript strings *)

(** File names and MIME types are sequences of code units; the model keeps
    the code units below 256.  The case mappings below act on the ASCII
    letters, the only code units that can be equal, up to case, to one of
    the letters of the patterns [.ppt] and [.pptx]. *)

Module JsString.

(** [String.prototype.endsWith(searchString)]: the substring of length
    [searchLength] that ends at the end of [s] equals [searchString]. *)
Definition endsWith (s searchString : string) : bool :=
  let len := String.length s in
  let searchLength := String.length searchString in
  if (len <? searchLength)%nat then false
  else String.eqb (substring (len - searchLength) searchLength s) searchString.

Definition is_upper (c : ascii) : bool :=
  let n := nat_of_ascii c in ((65 <=? n) && (n <=? 90))%nat.

Definition is_lower (c : ascii) : bool :=
  let n := nat_of_ascii c in ((97 <=? n) && (n <=? 122))%nat.

Definition lowerChar (c : ascii) : ascii :=
  if is_upper c then ascii_of_nat (nat_of_ascii c + 32) else c.

Definition upperChar (c : ascii) : ascii :=
  if is_lower c then ascii_of_nat (nat_of_ascii c - 32) else c.

(** [String.prototype.toLowerCase()]. *)
Fixpoint toLowerCase (s : string) : string :=
  match s with
  | EmptyString => EmptyString
  | String c r => String (lowerChar c) (toLowerCase r)
  end.

(** [Array.prototype.includes] on an array of strings. *)
Definition includes (l : list string) (x : string) : bool :=
  existsb (String.eqb x) l.

End JsString.

(* ================================================================== *)
(** ** Regular expressions: the fragment used by [/\.(ppt|pptx)$/i] *)

Module Regex.

Inductive regex : Type :=
| Eps                        (* the empty pattern *)
| Chr (c : ascii)            (* a pattern character *)
| Seq (r1 r2 : regex)        (* concatenation *)
| Alt (r1 r2 : regex)        (* r1|r2, the left alternative first *)
| Eos.                       (* the assertion $ without the m flag *)

(** Canonicalize of a non-unicode pattern with the [i] flag: the upper case
    of the code unit. *)
Definition canonicalize (c : ascii) : ascii := JsString.upperChar c.

(** Backtracking matcher with a continuation, as the pattern semantics of
    the language define it: [exec r s k] matches [r] at the head of [s] and
    hands the rest of the input to [k]; the result is the input left after
    the whole match. *)
Fixpoint exec (r : regex) (s : string) (k : string -> option string)
  : option string :=
  match r with
  | Eps => k s
  | Chr c =>
      match s with
      | EmptyString => None
      | String d rest =>
          if Ascii.eqb (canonicalize c) (canonicalize d) then k rest else None
      end
  | Seq r1 r2 => exec r1 s (fun rest => exec r2 rest k)
  | Alt r1 r2 =>
      match exec r1 s k with
      | Some rest => Some rest
      | None => exec r2 s k
      end
  | Eos =>
      match s with
      | EmptyString => k s
      | String _ _ => None
      end
  end.

(** The characters of a literal, in sequence. *)
Fixpoint lit (s : string) : regex :=
  match s with
  | EmptyString => Eps
  | String c r => Seq (Chr c) (lit r)
  end.

(** [String.prototype.replace(regex, replacement)] for a regex without the
    [g] flag and a replacement without [$] patterns: the leftmost match is
    replaced, the text before and after it is kept. *)
Fixpoint replace (r : regex) (replacement : string) (s : string) : string :=
  match exec r s Some with
  | Some rest => replacement ++ rest
  | None =>
      match s with
      | EmptyString => EmptyString
      | String c s' => String c (replace r replacement s')
      end
  end.

(** [/\.(ppt|pptx)$/i] *)
Definition pptExtension : regex :=
  Seq (Chr ".") (Seq (Alt (lit "ppt") (lit "pptx")) Eos).

End Regex.

(* ================================================================== *)
(** ** The environment of the server *)

(** A value a JavaScript call can throw.  The handler only asks whether it
    is an [Error] ([e instanceof Error ? e.message : 'Unknown error']). *)
Inductive Thrown : Type :=
| ErrorObject (message : string)
| NotAnError.

Definition errorText (e : Thrown) : string :=
  match e with
  | ErrorObject m => m
  | NotAnError => "Unknown error"
  end.

(** The result of a call that may throw (or of a promise that may reject). *)
Inductive Outcome (A : Type) : Type :=
| Returns (a : A)
| Throws (e : Thrown).
Arguments Returns {A} a.
Arguments Throws {A} e.

(** Everything the handler obtains from outside: the clock, the remote
    document service and the file system.  A run of the handler calls each
    of them with the arguments it computed; how they answer is not the
    program's choice. *)
Record World : Type := {
  Date_now : N;
  (* [drive.files.create]: the [data.id] of the created file, [None] when
     [data] or [data.id] is missing *)
  drive_files_create : string -> string -> Outcome (option string);
  (* [drive.files.export]: the PDF bytes *)
  drive_files_export : string -> Outcome string;
  drive_files_delete : string -> Outcome unit;
  fs_writeFile : string -> string -> Outcome unit;
  fs_unlink : string -> Outcome unit;
  (* the [err] argument [res.download] gives to its callback *)
  res_download_err : option Thrown
}.

(** What the HTTP caller receives. *)
Inductive Response : Type :=
| Json (status : N) (error : string) (details : option string)
| Download (path filename : string)
| FinalHandler (status : N) (message : string).

Definition statusCode (r : Response) : N :=
  match r with
  | Json st _ _ => st
  | Download _ _ => 200
  | FinalHandler st _ => st
  end.

(** The observable actions of one request, in the order they happen. *)
Inductive Event : Type :=
| DriveCreate (name mimeType : string)
| SetTimeout (ms : N)
| DriveExport (fileId : string)
| WriteFile (path data : string)
| DriveDelete (fileId : string)
| Unlink (path : string)
| Respond (r : Response).

Definition is_remote_call (e : Event) : bool :=
  match e with
  | DriveCreate _ _ | DriveExport _ | DriveDelete _ => true
  | _ => false
  end.

Definition remote_calls (tr : list Event) : list Event :=
  filter is_remote_call tr.

Fixpoint response_of (tr : list Event) : option Response :=
  match tr with
  | [] => None
  | Respond r :: _ => Some r
  | _ :: rest => response_of rest
  end.

(** JavaScript truthiness of a [string | null] value. *)
Definition truthy (v : option string) : bool :=
  match v with
  | None => false
  | Some s => negb (String.eqb s "")
  end.

(** Number-to-string conversion of a non-negative integer, as string
    concatenation applies it to [Date.now()]. *)
Definition Number_toString (n : N) : string :=
  NilEmpty.string_of_uint (N.to_uint n).

(** [path.join(dir, name)] for a directory and a file name that has no
    separator and no dot segment. *)
Definition join (dir name : string) : string :=
  if JsString.endsWith dir "/" then dir ++ name else dir ++ "/" ++ name.

(* ================================================================== *)
(** ** The handler monad: local variables, trace, exceptions *)

(** The three [let] variables of the route handler.  They are assigned
    inside the [try] block and read in the [catch] block and in the
    download callback, so they are part of the state and survive a throw. *)
Record Locals : Type := {
  uploadedFileId : option string;
  tempFilePath : option string;
  outputPath : option string
}.

Record St : Type := { locals : Locals; trace : list Event }.

Definition M (A : Type) : Type := St -> Outcome A * St.

Definition ret {A} (a : A) : M A := fun s => (Returns a, s).

Definition bind {A B} (m : M A) (f : A -> M B) : M B :=
  fun s =>
    match m s with
    | (Returns a, s') => f a s'
    | (Throws e, s') => (Throws e, s')
    end.

Definition throw {A} (e : Thrown) : M A := fun s => (Throws e, s).

Definition try_catch {A} (body : M A) (handler : Thrown -> M A) : M A :=
  fun s =>
    match body s with
    | (Returns a, s') => (Returns a, s')
    | (Throws e, s') => handler e s'
    end.

Declare Scope js_scope.
Delimit Scope js_scope with js.
Notation "x <- m ;; k" := (bind m (fun x => k))
  (at level 61, m at next level, right associativity) : js_scope.
Notation "m ;; k" := (bind m (fun _ => k))
  (at level 61, right associativity) : js_scope.
Local Open Scope js_scope.

Definition emit (ev : Event) : M unit :=
  fun s => (Returns tt, {| locals := locals s; trace := trace s ++ [ev] |}).

(** A call into the environment: it is recorded, then it returns or throws. *)
Definition call {A} (ev : Event) (o : Outcome A) : M A :=
  fun s => (o, {| locals := locals s; trace := trace s ++ [ev] |}).

Definition get : M Locals := fun s => (Returns (locals s), s).

Definition assign (f : Locals -> Locals) : M unit :=
  fun s => (Returns tt, {| locals := f (locals s); trace := trace s |}).

Definition set_uploadedFileId (v : option string) (l : Locals) : Locals :=
  {| uploadedFileId := v; tempFilePath := tempFilePath l;
     outputPath := outputPath l |}.
Definition set_tempFilePath (v : option string) (l : Locals) : Locals :=
  {| uploadedFileId := uploadedFileId l; tempFilePath := v;
     outputPath := outputPath l |}.
Definition set_outputPath (v : option string) (l : Locals) : Locals :=
  {| uploadedFileId := uploadedFileId l; tempFilePath := tempFilePath l;
     outputPath := v |}.

(* ================================================================== *)
(** ** server.ts: the upload middleware *)

(** The file object multer builds for the part it finds in the field
    [file]: [originalname] and [mimetype] as multer hands them to the
    filter and the handler, [size] the number of bytes of the part. *)
Record UploadPart : Type := {
  originalname : string;
  mimetype : string;
  size : N
}.

(** [req.file] as the disk storage fills it in. *)
Record MulterFile : Type := {
  file_part : UploadPart;
  file_path : string
}.

(** [limits.fileSize] *)
Definition fileSizeLimit : N := 50 * 1024 * 1024.

(** [fileFilter]: [true] is [cb(null, true)], [false] is
    [cb(new Error('Only PowerPoint files are allowed!'))]. *)
Definition fileFilter (file : UploadPart) : bool :=
  String.eqb (mimetype file) "application/vnd.ms-powerpoint"
  || String.eqb (mimetype file)
       "application/vnd.openxmlformats-officedocument.presentationml.presentation"
  || JsString.endsWith (originalname file) ".ppt"
  || JsString.endsWith (originalname file) ".pptx".

(** [storage.destination] and [storage.filename]. *)
Definition storage_destination : string := "uploads/".

Definition storage_filename (w : World) (file : UploadPart) : string :=
  Number_toString (Date_now w) ++ "-" ++ originalname file.

(** How a middleware leaves: [next()] with [req.file] set or not, or
    [next(err)]. *)
Inductive MiddlewareResult : Type :=
| Next (file : option MulterFile)
| NextError (e : Thrown).

(** [upload.single('file')] on a request in which multer finds at most one
    file, in the field [file].  [body] is that file, [None] when multer
    finds none; then the request goes on with [req.file] undefined.  A
    file the filter refuses, or one larger than [limits.fileSize], ends
    in [next(err)]; an accepted file is stored under
    [destination/filename].  Requests with a file part in another field
    are outside this function.  A file of exactly [limits.fileSize] bytes
    is taken as accepted here; whether a file of exactly that size is
    accepted or refused is the library's choice. *)
Definition upload_single (w : World) (body : option UploadPart)
  : MiddlewareResult :=
  match body with
  | None => Next None
  | Some file =>
      if fileFilter file then
        if (fileSizeLimit <? size file)%N then
          NextError (ErrorObject "File too large")
        else
          Next (Some {| file_part := file;
                        file_path := join storage_destination
                                          (storage_filename w file) |})
      else NextError (ErrorObject "Only PowerPoint files are allowed!")
  end.

(* ================================================================== *)
(** ** server.ts: cleanupFiles and the route handler *)

(** [cleanupFiles]: one [try] block around the three deletions, a [catch]
    that logs. *)
Definition cleanupFiles (w : World)
    (uploadedFileId tempFilePath outputPath : option string) : M unit :=
  try_catch
    ((if truthy uploadedFileId then
        match uploadedFileId with
        | Some id => call (DriveDelete id) (drive_files_delete w id)
        | None => ret tt
        end
      else ret tt) ;;
     (if truthy tempFilePath then
        match tempFilePath with
        | Some p => call (Unlink p) (fs_unlink w p)
        | None => ret tt
        end
      else ret tt) ;;
     (if truthy outputPath then
        match outputPath with
        | Some p => call (Unlink p) (fs_unlink w p)
        | None => ret tt
        end
      else ret tt))
    (fun cleanupError => ret tt).

(** [req.file.originalname.replace(/\.(ppt|pptx)$/i, '.pdf')] *)
Definition outputFileName (originalname : string) : string :=
  Regex.replace Regex.pptExtension ".pdf" originalname.

(** [res.download(path, filename, callback)]: when the transfer succeeds the
    file is the response; when it fails (the file cannot be sent, or the
    transfer is aborted) no response is completed.  Either way the
    callback then runs with the error of the transfer, if any. *)
Definition res_download (w : World) (path filename : string)
    (callback : option Thrown -> M unit) : M unit :=
  match res_download_err w with
  | None => emit (Respond (Download path filename))
  | Some _ => ret tt
  end ;;
  callback (res_download_err w).

(** The body of [app.post('/api/convert', upload.single('file'), ...)]. *)
Definition convertHandler (w : World) (file : option MulterFile) : M unit :=
  try_catch
    (match file with
     | None => emit (Respond (Json 400 "No file uploaded" None))
     | Some f =>
         let filePath := file_path f in
         assign (set_tempFilePath (Some filePath)) ;;
         try_catch
           (id <- call (DriveCreate (originalname (file_part f))
                                    (mimetype (file_part f)))
                       (drive_files_create w (originalname (file_part f))
                                             (mimetype (file_part f))) ;;
            if negb (truthy id) then
              throw (ErrorObject "Failed to upload file to Google Drive")
            else assign (set_uploadedFileId id))
           (fun uploadError =>
              throw (ErrorObject ("Failed to upload to Google Drive: "
                                  ++ errorText uploadError))) ;;
         emit (SetTimeout 2000) ;;
         try_catch
           (l <- get ;;
            let fileId := match uploadedFileId l with
                          | Some id => id
                          | None => ""
                          end in
            pdf <- call (DriveExport fileId) (drive_files_export w fileId) ;;
            let name := outputFileName (originalname (file_part f)) in
            let out := join "uploads" name in
            assign (set_outputPath (Some out)) ;;
            call (WriteFile out pdf) (fs_writeFile w out pdf) ;;
            res_download w out name
              (fun err =>
                 l <- get ;;
                 cleanupFiles w (uploadedFileId l) (tempFilePath l)
                              (outputPath l)))
           (fun conversionError =>
              throw (ErrorObject ("Failed to convert to PDF: "
                                  ++ errorText conversionError)))
     end)
    (fun error =>
       l <- get ;;
       cleanupFiles w (uploadedFileId l) (tempFilePath l) (outputPath l) ;;
       emit (Respond (Json 500 "Error converting file to PDF"
                           (Some (errorText error))))).

Definition initial : St :=
  {| locals := {| uploadedFileId := None; tempFilePath := None;
                  outputPath := None |};
     trace := [] |}.

(** One request to [POST /api/convert].  The application registers no
    error-handling middleware, so an error a middleware passes to [next]
    is answered by the framework's final handler; the error objects built
    here carry no [status], so it answers 500. *)
Definition post_api_convert (w : World) (body : option UploadPart)
  : list Event :=
  match upload_single w body with
  | NextError e => [Respond (FinalHandler 500 (errorText e))]
  | Next file => trace (snd (convertHandler w file initial))
  end.

(** The scratch paths of a request: where the upload is stored and where
    the PDF is written. *)
Definition uploadPath (w : World) (file : UploadPart) : string :=
  join storage_destination (storage_filename w file).

Definition pdfPath (file : UploadPart) : string :=
  join "uploads" (outputFileName (originalname file)).

(* ================================================================== *)
(** ** The browser client *)

Module Client.

(** The fields of a DOM [File] the services read. *)
Record File : Type := {
  name : string;
  type : string;
  size : N
}.

(** *** FileUploadService *)

Definition maxFileSize : N := 10 * 1024 * 1024.

Definition validFileTypes : list string :=
  ["application/vnd.ms-powerpoint";
   "application/vnd.openxmlformats-officedocument.presentationml.presentation"].

Definition validateFileType (file : File) : bool :=
  JsString.includes validFileTypes (type file)
  || JsString.endsWith (name file) ".ppt"
  || JsString.endsWith (name file) ".pptx".

Definition validateFileSize (file : File) : bool :=
  (size file <=? maxFileSize)%N.

(** *** ConversionService *)

Definition isValidPowerPointFile (file : File) : bool :=
  let validTypes :=
    ["application/vnd.ms-powerpoint";
     "application/vnd.openxmlformats-officedocument.presentationml.presentation"] in
  let validExtensions := [".ppt"; ".pptx"] in
  JsString.includes validTypes (type file)
  || existsb (fun ext => JsString.endsWith (JsString.toLowerCase (name file)) ext)
             validExtensions.

(** The [link.download] name [downloadPdf] computes:
    [fileName.replace(/\.(ppt|pptx)$/i, '.pdf')]. *)
Definition downloadName (fileName : string) : string :=
  Regex.replace Regex.pptExtension ".pdf" fileName.

(** *** ConverterComponent *)

(** The fields of the component, and the two handles [convertToPdf] keeps
    in its closure: whether the interval timer [progressInterval] is still
    set, and whether the subscription can still deliver. *)
Record Component : Type := {
  isLoading : bool;
  errorMessage : string;
  successMessage : string;
  selectedFile : option File;
  conversionStatus : string;
  uploadProgress : N;
  progressInterval : bool;
  subscribed : bool
}.

Definition fresh : Component :=
  {| isLoading := false; errorMessage := ""; successMessage := "";
     selectedFile := None; conversionStatus := ""; uploadProgress := 0;
     progressInterval := false; subscribed := false |}.

(** [onFileSelected], given [input.files]. *)
Definition onFileSelected (c : Component) (files : list File) : Component :=
  match files with
  | [] => c
  | file :: _ =>
      if negb (validateFileType file) then
        {| isLoading := isLoading c;
           errorMessage := "Please select a PowerPoint file (.ppt or .pptx)";
           successMessage := successMessage c;
           selectedFile := None;
           conversionStatus := conversionStatus c;
           uploadProgress := uploadProgress c;
           progressInterval := progressInterval c;
           subscribed := subscribed c |}
      else if negb (validateFileSize file) then
        {| isLoading := isLoading c;
           errorMessage := "File size exceeds the maximum limit of 10MB";
           successMessage := successMessage c;
           selectedFile := None;
           conversionStatus := conversionStatus c;
           uploadProgress := uploadProgress c;
           progressInterval := progressInterval c;
           subscribed := subscribed c |}
      else
        {| isLoading := isLoading c;
           errorMessage := "";
           successMessage := "";
           selectedFile := Some file;
           conversionStatus := conversionStatus c;
           uploadProgress := uploadProgress c;
           progressInterval := progressInterval c;
           subscribed := subscribed c |}
  end.

(** [convertToPdf] up to and including [subscribe]: without a selected file
    it only sets the error message; otherwise it resets the progress, sets
    the interval timer and subscribes. *)
Definition convertToPdf (c : Component) : Component :=
  match selectedFile c with
  | None =>
      {| isLoading := isLoading c;
         errorMessage := "Please select a file first";
         successMessage := successMessage c;
         selectedFile := selectedFile c;
         conversionStatus := conversionStatus c;
         uploadProgress := uploadProgress c;
         progressInterval := progressInterval c;
         subscribed := subscribed c |}
  | Some _ =>
      {| isLoading := true;
         errorMessage := "";
         successMessage := "";
         selectedFile := selectedFile c;
         conversionStatus := "Uploading file to server...";
         uploadProgress := 0;
         progressInterval := true;
         subscribed := true |}
  end.

(** The callback given to [setInterval]. *)
Definition onTick (c : Component) : Component :=
  if (uploadProgress c <? 90)%N then
    let p := (uploadProgress c + 10)%N in
    {| isLoading := isLoading c;
       errorMessage := errorMessage c;
       successMessage := successMessage c;
       selectedFile := selectedFile c;
       conversionStatus :=
         if ((30 <=? p) && (p <? 60))%N then "Processing PowerPoint file..."
         else if ((60 <=? p) && (p <? 90))%N then "Converting to PDF..."
         else conversionStatus c;
       uploadProgress := p;
       progressInterval := progressInterval c;
       subscribed := subscribed c |}
  else c.

(** The [next] callback, up to [clearInterval]; the timeout it then sets
    ends the loading state and starts the download, and leaves the
    progress alone. *)
Definition onNext (c : Component) : Component :=
  {| isLoading := isLoading c;
     errorMessage := errorMessage c;
     successMessage := successMessage c;
     selectedFile := selectedFile c;
     conversionStatus := "Finalizing...";
     uploadProgress := 100;
     progressInterval := false;
     subscribed := false |}.

(** The [error] callback. *)
Definition onError (c : Component) (message : string) : Component :=
  {| isLoading := false;
     errorMessage :=
       if String.eqb message "" then
         "An error occurred during conversion. Please try again."
       else message;
     successMessage := successMessage c;
     selectedFile := selectedFile c;
     conversionStatus := "";
     uploadProgress := 0;
     progressInterval := false;
     subscribed := false |}.

(** What the browser can deliver to a component with a request in flight:
    a timer tick, the response, or an error. *)
Inductive Signal : Type :=
| Tick
| ResponseArrived
| Failed (message : string).

(** A tick reaches the callback only while the interval is set; the
    subscription delivers one response or one error. *)
Definition deliver (c : Component) (s : Signal) : Component :=
  match s with
  | Tick => if progressInterval c then onTick c else c
  | ResponseArrived => if subscribed c then onNext c else c
  | Failed m => if subscribed c then onError c m else c
  end.

Definition run (c : Component) (signals : list Signal) : Component :=
  fold_left deliver signals c.

End Client.

(** The deletions [cleanupFiles] attempts. *)
Definition is_deletion (e : Event) : bool :=
  match e with
  | DriveDelete _ | Unlink _ => true
  | _ => false
  end.

(** The deletion attempts of one call of [cleanupFiles]. *)
Definition attempts (w : World) (a b c : option string) : list Event :=
  trace (snd (cleanupFiles w a b c initial)).

(** Two environments that differ at most in how deletions answer. *)
Definition same_but_deletions (w w' : World) : Prop :=
  Date_now w = Date_now w'
  /\ drive_files_create w = drive_files_create w'
  /\ drive_files_export w = drive_files_export w'
  /\ fs_writeFile w = fs_writeFile w'
  /\ res_download_err w = res_download_err w'.

(** A file extension that is [.ppt] or [.pptx] in any letter case. *)
Definition pptExtensionAnyCase (e : string) : Prop :=
  JsString.toLowerCase e = ".ppt" \/ JsString.toLowerCase e = ".pptx".

(* ================================================================== *)
(** ** Concrete inputs used in examples *)

Definition quiet : World :=
  {| Date_now := 1700000000000;
     drive_files_create := fun _ _ => Returns (Some "1AbC");
     drive_files_export := fun _ => Returns "%PDF-1.4";
     drive_files_delete := fun _ => Returns tt;
     fs_writeFile := fun _ _ => Returns tt;
     fs_unlink := fun _ => Returns tt;
     res_download_err := None |}.

(** The export call fails. *)
Definition exportFails : World :=
  {| Date_now := Date_now quiet;
     drive_files_create := drive_files_create quiet;
     drive_files_export := fun _ => Throws (ErrorObject "socket hang up");
     drive_files_delete := drive_files_delete quiet;
     fs_writeFile := fs_writeFile quiet;
     fs_unlink := fs_unlink quiet;
     res_download_err := None |}.

(** The remote delete call fails. *)
Definition deleteFails : World :=
  {| Date_now := Date_now quiet;
     drive_files_create := drive_files_create quiet;
     drive_files_export := drive_files_export quiet;
     drive_files_delete := fun _ => Throws (ErrorObject "File not found");
     fs_writeFile := fs_writeFile quiet;
     fs_unlink := fs_unlink quiet;
     res_download_err := None |}.

(** The transfer of the download fails. *)
Definition downloadFails : World :=
  {| Date_now := Date_now quiet;
     drive_files_create := drive_files_create quiet;
     drive_files_export := drive_files_export quiet;
     drive_files_delete := drive_files_delete quiet;
     fs_writeFile := fs_writeFile quiet;
     fs_unlink := fs_unlink quiet;
     res_download_err := Some (ErrorObject "Request aborted") |}.

Definition deck : UploadPart :=
  {| originalname := "deck.pptx";
     mimetype :=
       "application/vnd.openxmlformats-officedocument.presentationml.presentation";
     size := 2 * 1024 * 1024 |}.

Definition notes : UploadPart :=
  {| originalname := "notes.txt"; mimetype := "text/plain"; size := 2048 |}.

Definition huge : UploadPart :=
  {| originalname := "all-hands.pptx";
     mimetype :=
       "application/vnd.openxmlformats-officedocument.presentationml.presentation";
     size := 50 * 1024 * 1024 + 1 |}.

Definition keynote : UploadPart :=
  {| originalname := "talk.key";
     mimetype := "application/vnd.ms-powerpoint";
     size := 4096 |}.

Definition scratchPaths (w : World) (file : UploadPart) : list string :=
  [uploadPath w file; pdfPath file].

(** One millisecond after [quiet]. *)
Definition later : World :=
  {| Date_now := Date_now quiet + 1;
     drive_files_create := drive_files_create quiet;
     drive_files_export := drive_files_export quiet;
     drive_files_delete := drive_files_delete quiet;
     fs_writeFile := fs_writeFile quiet;
     fs_unlink := fs_unlink quiet;
     res_download_err := None |}.

Definition deckOld : UploadPart :=
  {| originalname := "deck.ppt";
     mimetype := "application/vnd.ms-powerpoint";
     size := 1024 * 1024 |}.

(* ================================================================== *)
(** ** Observations on a trace *)

Definition is_response (e : Event) : bool :=
  match e with
  | Respond _ => true
  | _ => false
  end.

(** The number of answers sent in a trace. *)
Definition responses (tr : list Event) : nat :=
  List.length (filter is_response tr).

(** The remote delete calls of a trace. *)
Definition remote_deletes (tr : list Event) : list Event :=
  filter (fun e => match e with DriveDelete _ => true | _ => false end) tr.

(* ================================================================== *)
(** ** server.ts: start-up *)

Module Startup.

(** [process.env]: a variable is absent or has a string value. *)
Definition Env : Type := string -> option string.

Definition requiredEnvVars : list string :=
  ["GOOGLE_CLIENT_ID"; "GOOGLE_CLIENT_SECRET"; "GOOGLE_REDIRECT_URI";
   "GOOGLE_REFRESH_TOKEN"].

(** [requiredEnvVars.filter(varName => !process.env[varName])] *)
Definition missingEnvVars (env : Env) : list string :=
  filter (fun varName => negb (truthy (env varName))) requiredEnvVars.

(** What the start of the module does with the environment: [Some 1] is
    [process.exit(1)], [None] is going on to create the application. *)
Definition validate (env : Env) : option N :=
  if (0 <? List.length (missingEnvVars env))%nat then Some 1%N else None.

End Startup.

(* ================================================================== *)
(** ** The browser client: ConversionService *)

Module ConversionService.

(** [String.prototype.includes(searchString)] *)
Definition includes (s searchString : string) : bool :=
  match index 0 searchString s with
  | Some _ => true
  | None => false
  end.

(** The [error] field of what reaches [handleError]: a [Blob], an
    [ErrorEvent], an object that may carry [details] and [error], or
    nothing. *)
Inductive ErrorBody : Type :=
| BlobBody (text : string)
| ErrorEventBody (message : string)
| ObjectBody (details error : option string)
| NoBody.

Record ErrorResponse : Type := {
  error_body : ErrorBody;
  error_message : string
}.

(** What the HTTP request ends with: a response with its [content-type]
    header and body, or an error. *)
Inductive HttpReply : Type :=
| Responds (contentType : option string) (body : string)
| Fails (e : ErrorResponse).

(** What the subscriber of [convertToPdf] receives. *)
Inductive Delivery : Type :=
| Emits (pdfBlob : string)
| Errors (message : string).

(** JavaScript [a || b] on [string | undefined] operands. *)
Definition or_else (a b : option string) : option string :=
  if truthy a then a else b.

(** [handleError]: the message of the error it rethrows.  For a [Blob] the
    reader's [onload] callback, the only place that reads the blob, runs
    after [handleError] has returned and the error has been built, so the
    message is still the initial one. *)
Definition handleError (error : ErrorResponse) : string :=
  let errorMessage := "An error occurred during conversion" in
  match error_body error with
  | BlobBody _ => errorMessage
  | ErrorEventBody message => message
  | ObjectBody details err =>
      match or_else (or_else details err) (Some (error_message error)) with
      | Some m => m
      | None => error_message error
      end
  | NoBody => error_message error
  end.

(** The two checks [convertToPdf] makes before it posts: [Some message] is
    the error it returns without a request. *)
Definition precheck (file : Client.File) : option string :=
  if negb (Client.isValidPowerPointFile file) then
    Some "Invalid file type. Please upload a PowerPoint file (.ppt or .pptx)"
  else if (50 * 1024 * 1024 <? Client.size file)%N then
    Some "File size exceeds 50MB limit"
  else None.

(** [convertToPdf], given how the request ends when one is made: the
    [map] step lets a PDF response through and throws otherwise, and
    [catchError(this.handleError)] rewrites every error of the request,
    the thrown one included. *)
Definition convertToPdf (file : Client.File) (reply : HttpReply) : Delivery :=
  match precheck file with
  | Some message => Errors message
  | None =>
      match reply with
      | Responds contentType body =>
          match contentType with
          | Some ct =>
              if truthy contentType && includes ct "application/pdf" then
                Emits body
              else
                Errors (handleError
                          {| error_body := NoBody;
                             error_message :=
                               "Invalid response type from server" |})
          | None =>
              Errors (handleError
                        {| error_body := NoBody;
                           error_message :=
                             "Invalid response type from server" |})
          end
      | Fails e => Errors (handleError e)
      end
  end.

(** The file of a multipart request made from a DOM [File]. *)
Definition part_of (file : Client.File) : UploadPart :=
  {| originalname := Client.name file;
     mimetype := Client.type file;
     size := Client.size file |}.

End ConversionService.

(* ================================================================== *)
(** ** The browser client: what the user can do with the converter form *)

Module Form.

(** The callback of the timeout the [next] callback sets: it ends the
    loading state and downloads under the name of the file that is
    selected when it runs.  [None] in the second component is the
    [TypeError] of reading [name] of a null selection. *)
Definition afterDelay (c : Client.Component)
  : Client.Component * option string :=
  let c' :=
    {| Client.isLoading := false;
       Client.errorMessage := Client.errorMessage c;
       Client.successMessage := "Conversion successful! Downloading PDF...";
       Client.selectedFile := Client.selectedFile c;
       Client.conversionStatus := "";
       Client.uploadProgress := Client.uploadProgress c;
       Client.progressInterval := Client.progressInterval c;
       Client.subscribed := Client.subscribed c |} in
  (c', match Client.selectedFile c with
       | Some file => Some (Client.downloadName (Client.name file))
       | None => None
       end).

(** The page: the component and whether the timeout the [next] callback
    set is still to fire. *)
Record Page : Type := {
  component : Client.Component;
  delayPending : bool
}.

(** What can happen on the page: a selection in the file input, a click
    on the button, a signal of the browser, the end of the delay. *)
Inductive Action : Type :=
| Select (files : list Client.File)
| Click
| Signalled (s : Client.Signal)
| DelayElapsed.

(** The template disables the button with [!selectedFile || isLoading]. *)
Definition buttonDisabled (c : Client.Component) : bool :=
  match Client.selectedFile c with
  | None => true
  | Some _ => Client.isLoading c
  end.

Definition step (p : Page) (a : Action) : Page :=
  let c := component p in
  match a with
  | Select files =>
      {| component := Client.onFileSelected c files;
         delayPending := delayPending p |}
  | Click =>
      if buttonDisabled c then p
      else {| component := Client.convertToPdf c;
              delayPending := delayPending p |}
  | Signalled s =>
      {| component := Client.deliver c s;
         delayPending :=
           match s with
           | Client.ResponseArrived => Client.subscribed c || delayPending p
           | _ => delayPending p
           end |}
  | DelayElapsed =>
      if delayPending p then
        {| component := fst (afterDelay c); delayPending := false |}
      else p
  end.

Definition opened : Page :=
  {| component := Client.fresh; delayPending := false |}.

Definition after (actions : list Action) : Page :=
  fold_left step actions opened.

(** What holds of the page at every moment (see [page_invariant]). *)
Definition invariant (p : Page) : Prop :=
  let c := component p in
  Client.progressInterval c = Client.subscribed c
  /\ (Client.subscribed c = true ->
      Client.isLoading c = true /\ delayPending p = false
      /\ exists j, (j <= 9)%N /\ Client.uploadProgress c = (10 * j)%N)
  /\ (delayPending p = true ->
      Client.isLoading c = true /\ Client.subscribed c = false
      /\ Client.uploadProgress c = 100%N)
  /\ (Client.isLoading c = false ->
      Client.subscribed c = false /\ delayPending p = false)
  /\ (exists j, (j <= 10)%N /\ Client.uploadProgress c = (10 * j)%N).

(** The status label [onTick] leaves after [k] ticks of one request. *)
Definition label (k : nat) : string :=
  if (k <? 3)%nat then "Uploading file to server..."
  else if (k <? 6)%nat then "Processing PowerPoint file..."
  else "Converting to PDF...".

End Form.

(* ================================================================== *)
(** ** The browser client: AppComponent *)

Module AppComponent.

Record App : Type := {
  selectedFile : option Client.File;
  isConverting : bool;
  error : option string
}.

Definition start : App :=
  {| selectedFile := None; isConverting := false; error := None |}.

(** [onFileSelected], given [input.files]. *)
Definition onFileSelected (c : App) (files : list Client.File) : App :=
  match files with
  | [] => c
  | file :: _ =>
      {| selectedFile := Some file; isConverting := isConverting c;
         error := None |}
  end.

(** [convertFile], given how the request ends when one is made: the final
    state, and the name of the download when there is one. *)
Definition convertFile (c : App) (reply : ConversionService.HttpReply)
  : App * option string :=
  match selectedFile c with
  | None =>
      ({| selectedFile := None; isConverting := isConverting c;
          error := Some "Please select a file first" |}, None)
  | Some file =>
      match ConversionService.convertToPdf file reply with
      | ConversionService.Emits pdfBlob =>
          ({| selectedFile := None; isConverting := false; error := None |},
           Some (Regex.replace Regex.pptExtension ".pdf" (Client.name file)))
      | ConversionService.Errors message =>
          ({| selectedFile := Some file; isConverting := false;
              error := Some message |}, None)
      end
  end.

End AppComponent.

(* ================================================================== *)
(** ** The browser client: the fallback PDF of the conversion service *)

Module Fallback.

(** The line feed the source writes as a backslash followed by n. *)
Definition LF : string := String "010" EmptyString.

(** [s.replace(/\n/g, replacement)]: every line feed is replaced. *)
Fixpoint replaceLineFeeds (replacement s : string) : string :=
  match s with
  | EmptyString => EmptyString
  | String c r =>
      if Ascii.eqb c "010" then replacement ++ replaceLineFeeds replacement r
      else String c (replaceLineFeeds replacement r)
  end.

(** The conversion of a length to a string in a template literal. *)
Definition decimal (n : nat) : string := Number_toString (N.of_nat n).

Definition pdfHeader : string := "%PDF-1.7" ++ LF.

Definition obj1 : string :=
  "1 0 obj" ++ LF ++ "<< /Type /Catalog /Pages 2 0 R >>" ++ LF
  ++ "endobj" ++ LF.

Definition obj2 : string :=
  "2 0 obj" ++ LF ++ "<< /Type /Pages /Kids [3 0 R] /Count 1 >>" ++ LF
  ++ "endobj" ++ LF.

Definition obj3 : string :=
  "3 0 obj" ++ LF
  ++ "<< /Type /Page /Parent 2 0 R /Resources 4 0 R /MediaBox [0 0 612 792] /Contents 5 0 R >>"
  ++ LF ++ "endobj" ++ LF.

Definition obj4 : string :=
  "4 0 obj" ++ LF ++ "<< /Font << /F1 6 0 R >> >>" ++ LF ++ "endobj" ++ LF.

(** [date] is the result of [new Date().toLocaleString()]. *)
Definition content (fileName date : string) : string :=
  "PowerPoint to PDF Conversion" ++ LF ++ LF ++ "Original file: " ++ fileName
  ++ LF ++ LF ++ "Converted on: " ++ date.

Definition contentStream (fileName date : string) : string :=
  "5 0 obj" ++ LF ++ "<< /Length "
  ++ decimal (String.length (content fileName date) + 100) ++ " >>" ++ LF
  ++ "stream" ++ LF ++ "BT" ++ LF ++ "/F1 12 Tf" ++ LF ++ "50 700 Td" ++ LF
  ++ "("
  ++ replaceLineFeeds (") Tj" ++ LF ++ "T* (") (content fileName date)
  ++ ") Tj" ++ LF ++ "ET" ++ LF ++ "endstream" ++ LF ++ "endobj" ++ LF.

Definition obj6 : string :=
  "6 0 obj" ++ LF ++ "<< /Type /Font /Subtype /Type1 /BaseFont /Helvetica >>"
  ++ LF ++ "endobj" ++ LF.

Definition xrefPosition (fileName date : string) : nat :=
  String.length pdfHeader + String.length obj1 + String.length obj2
  + String.length obj3 + String.length obj4
  + String.length (contentStream fileName date) + String.length obj6.

(** The position is above 100, so the subtraction of naturals below is the
    subtraction of the source. *)
Definition xref (fileName date : string) : string :=
  "xref" ++ LF ++ "0 7" ++ LF ++ "0000000000 65535 f" ++ LF
  ++ "0000000010 00000 n" ++ LF ++ "0000000060 00000 n" ++ LF
  ++ "0000000120 00000 n" ++ LF ++ "0000000220 00000 n" ++ LF
  ++ "0000000270 00000 n" ++ LF
  ++ "0000000" ++ decimal (xrefPosition fileName date - 100) ++ " 00000 n"
  ++ LF.

Definition trailer (fileName date : string) : string :=
  "trailer" ++ LF ++ "<< /Size 7 /Root 1 0 R >>" ++ LF ++ "startxref" ++ LF
  ++ decimal (xrefPosition fileName date) ++ LF ++ "%%EOF".

Definition pdfString (fileName date : string) : string :=
  pdfHeader ++ obj1 ++ obj2 ++ obj3 ++ obj4 ++ contentStream fileName date
  ++ obj6 ++ xref fileName date ++ trailer fileName date.

(** [TextEncoder.encode]: UTF-8, one byte for a code unit below 128 and two
    bytes for the others the model has. *)
Fixpoint encode (s : string) : list N :=
  match s with
  | EmptyString => []
  | String c r =>
      let n := N_of_ascii c in
      ((if n <? 128 then [n] else [192 + n / 64; 128 + n mod 64])
       ++ encode r)%N%list
  end.

Definition createSimplePdf (fileName date : string) : list N :=
  encode (pdfString fileName date).

(** Every code unit is below 128. *)
Fixpoint isAscii (s : string) : bool :=
  match s with
  | EmptyString => true
  | String c r => (N_of_ascii c <? 128)%N && isAscii r
  end.

End Fallback.

(* ================================================================== *)
(** ** Proof steps that recur *)

(** Decide every comparison of a lowered character with a pattern
    character. *)
Ltac lower_chars :=
  repeat match goal with
  | |- context [Ascii.eqb (JsString.lowerChar ?c) ?p] =>
      destruct (Ascii.eqb_spec (JsString.lowerChar c) p) as [->|]
  end.

(** Unfold the operations of the handler monad. *)
Ltac run_monad :=
  unfold cleanupFiles, try_catch, bind, call, ret, emit, throw, get, assign;
  cbn [fst snd locals trace truthy].

(* ================================================================== *)
(** ** Facts about strings *)

Section StringFacts.

Import JsString.

Lemma length_append (a b : string) :
  String.length (a ++ b) = String.length a + String.length b.
Proof. induction a as [|c a IH]; simpl; [reflexivity | now rewrite IH]. Qed.

Lemma substring_whole (s : string) : substring 0 (String.length s) s = s.
Proof. induction s as [|c s IH]; simpl; [reflexivity | now rewrite IH]. Qed.

Lemma substring_skip (b x : string) :
  substring (String.length b) (String.length x) (b ++ x) = x.
Proof.
  induction b as [|c b IH]; simpl.
  - apply substring_whole.
  - exact IH.
Qed.

Lemma substring_split (n : nat) :
  forall s, n <= String.length s ->
    s = substring 0 n s ++ substring n (String.length s - n) s.
Proof.
  induction n as [|n IH]; intros s Hn.
  - rewrite Nat.sub_0_r, substring_whole. destruct s; reflexivity.
  - destruct s as [|c s]; simpl in Hn; [lia|].
    simpl. f_equal. apply IH. lia.
Qed.

Lemma endsWith_append (b x : string) : endsWith (b ++ x) x = true.
Proof.
  unfold endsWith. rewrite length_append.
  destruct (Nat.ltb_spec (String.length b + String.length x) (String.length x));
    [lia|].
  replace (String.length b + String.length x - String.length x)
    with (String.length b) by lia.
  rewrite substring_skip. apply String.eqb_refl.
Qed.

Lemma endsWith_inv (s x : string) :
  endsWith s x = true -> exists b, s = b ++ x.
Proof.
  unfold endsWith.
  destruct (Nat.ltb_spec (String.length s) (String.length x)) as [|Hle];
    [discriminate|].
  intros H. apply String.eqb_eq in H.
  exists (substring 0 (String.length s - String.length x) s).
  pose proof (substring_split (String.length s - String.length x) s) as Hs.
  replace (String.length s - (String.length s - String.length x))
    with (String.length x) in Hs by lia.
  rewrite H in Hs. apply Hs. lia.
Qed.

(** Two ways to cut one string: the shorter tail is a tail of the longer. *)
Lemma append_tails (a : string) :
  forall b x y, a ++ x = b ++ y -> String.length x <= String.length y ->
    exists c, y = c ++ x.
Proof.
  induction a as [|h a IH]; intros b x y E L; simpl in E.
  - subst x. rewrite length_append in L.
    destruct b; simpl in L; [|lia]. now exists "".
  - destruct b as [|h' b]; simpl in E.
    + exists (String h a). now rewrite <- E.
    + injection E as _ E. eapply IH; eauto.
Qed.

Lemma append_same_length (a : string) :
  forall b x y, a ++ x = b ++ y -> String.length x = String.length y ->
    a = b /\ x = y.
Proof.
  induction a as [|h a IH]; intros b x y E L; simpl in E.
  - subst x. rewrite length_append in L.
    destruct b; simpl in L; [|lia]. now split.
  - destruct b as [|h' b]; simpl in E.
    + subst y. simpl in L. rewrite length_append in L. lia.
    + injection E as -> E. destruct (IH _ _ _ E L) as [-> ->]. now split.
Qed.

Lemma toLowerCase_append (a b : string) :
  toLowerCase (a ++ b) = toLowerCase a ++ toLowerCase b.
Proof. induction a as [|c a IH]; simpl; [reflexivity | now rewrite IH]. Qed.

Lemma toLowerCase_length (s : string) :
  String.length (toLowerCase s) = String.length s.
Proof. induction s as [|c s IH]; simpl; [reflexivity | now rewrite IH]. Qed.

(** A cut of the lowered string is the lowering of a cut of the string. *)
Lemma toLowerCase_cut (s : string) :
  forall b' x, toLowerCase s = b' ++ x ->
    exists b e, s = b ++ e /\ toLowerCase b = b' /\ toLowerCase e = x.
Proof.
  induction s as [|c s IH]; intros b' x E; simpl in E.
  - destruct b'; simpl in E; [|discriminate]. subst x.
    now exists "", "".
  - destruct b' as [|c' b']; simpl in E.
    + exists "", (String c s). now subst x.
    + injection E as Ec E. destruct (IH _ _ E) as (b & e & -> & Hb & He).
      exists (String c b), e. simpl. now rewrite Hb, Ec, He.
Qed.

End StringFacts.

(* ================================================================== *)
(** ** Facts about the extension pattern *)

Section PatternFacts.

Import JsString Regex.

Lemma canonicalize_matches (p d : ascii) :
  In p ["."; "p"; "t"; "x"]%char ->
  Ascii.eqb (canonicalize p) (canonicalize d) = Ascii.eqb (lowerChar d) p.
Proof.
  intros [<-|[<-|[<-|[<-|[]]]]];
    destruct d as [[] [] [] [] [] [] [] []]; vm_compute; reflexivity.
Qed.

(** The pattern matches at the head of [s] exactly when the whole of [s] is
    a PowerPoint extension, and then it consumes all of it. *)
Lemma exec_pptExtension (s : string) :
  (pptExtensionAnyCase s /\ exec pptExtension s Some = Some "")
  \/ (~ pptExtensionAnyCase s /\ exec pptExtension s Some = None).
Proof.
  unfold pptExtensionAnyCase.
  destruct s as [|c1 [|c2 [|c3 [|c4 [|c5 [|c6 s]]]]]];
    cbn [exec pptExtension lit toLowerCase];
    rewrite ?canonicalize_matches by (simpl; tauto);
    lower_chars;
    solve [ left; split; [auto | reflexivity]
          | right; split; [intros [E|E]; congruence | reflexivity] ].
Qed.

(** A PowerPoint extension is not the tail of a longer one. *)
Lemma pptExtension_not_nested (e : string) (c : ascii) (b : string) :
  pptExtensionAnyCase e -> ~ pptExtensionAnyCase (String c (b ++ e)).
Proof.
  unfold pptExtensionAnyCase. simpl. rewrite toLowerCase_append.
  intros [E|E] [F|F]; rewrite E in F;
    pose proof (f_equal String.length F) as L; simpl in L;
    rewrite length_append, toLowerCase_length in L; simpl in L; try lia.
  destruct b; simpl in *; [discriminate | lia].
Qed.

Lemma replace_keeps (s : string) :
  (forall a t, s = a ++ t -> ~ pptExtensionAnyCase t) ->
  replace pptExtension ".pdf" s = s.
Proof.
  induction s as [|c s IH]; intros H.
  - destruct (exec_pptExtension "") as [[P _]|[_ E]].
    + exfalso. now apply (H "" "").
    + simpl. reflexivity.
  - cbn [replace].
    destruct (exec_pptExtension (String c s)) as [[P _]|[_ ->]].
    + exfalso. now apply (H "" (String c s)).
    + f_equal. apply IH. intros a t ->. now apply (H (String c a) t).
Qed.

Lemma replace_swaps (base e : string) :
  pptExtensionAnyCase e ->
  replace pptExtension ".pdf" (base ++ e) = base ++ ".pdf".
Proof.
  intros P. induction base as [|c base IH].
  - cbn [append].
    destruct (exec_pptExtension e) as [[_ E]|[N _]]; [|contradiction].
    destruct e; cbn [replace]; rewrite E; reflexivity.
  - cbn [append replace].
    destruct (exec_pptExtension (String c (base ++ e))) as [[Q _]|[_ ->]].
    + exfalso. now apply (pptExtension_not_nested e c base).
    + now rewrite IH.
Qed.

(** A name whose lowered form ends in [.ppt] or [.pptx] is a base followed
    by a PowerPoint extension, and conversely. *)
Lemma endsWith_lowered (s : string) :
  (endsWith (toLowerCase s) ".ppt" = true
   \/ endsWith (toLowerCase s) ".pptx" = true)
  <-> exists base e, s = base ++ e /\ pptExtensionAnyCase e.
Proof.
  split.
  - intros [H|H]; apply endsWith_inv in H; destruct H as [b' H];
      destruct (toLowerCase_cut _ _ _ H) as (b & e & -> & _ & He);
      exists b, e; (split; [reflexivity|]); [left|right]; exact He.
  - intros (b & e & -> & [E|E]); [left|right];
      rewrite toLowerCase_append, E; apply endsWith_append.
Qed.

End PatternFacts.

(* ================================================================== *)
(** ** The output file name *)



Lemma outputFileName_keeps (originalname : string) :
  JsString.endsWith (JsString.toLowerCase originalname) ".ppt" = false ->
  JsString.endsWith (JsString.toLowerCase originalname) ".pptx" = false ->
  Regex.replace Regex.pptExtension ".pdf" originalname = originalname.
Proof.
  intros H1 H2.
  apply replace_keeps. intros a t -> P.
  assert (E : JsString.endsWith (JsString.toLowerCase (a ++ t)) ".ppt" = true
           \/ JsString.endsWith (JsString.toLowerCase (a ++ t)) ".pptx" = true)
    by (apply endsWith_lowered; now exists a, t).
  destruct E; congruence.
Qed.

(* ================================================================== *)
(** ** cleanupFiles *)

Section Cleanup.

Variable w : World.

(** With the three values set, the deletions are attempted in order and
    the first failure ends the attempts; nothing is thrown. *)
Lemma cleanupFiles_all_set (id temp out : string) (s : St) :
  id <> "" -> temp <> "" -> out <> "" ->
  cleanupFiles w (Some id) (Some temp) (Some out) s =
  (Returns tt,
   {| locals := locals s;
      trace := trace s ++
        match drive_files_delete w id with
        | Throws _ => [DriveDelete id]
        | Returns _ =>
            match fs_unlink w temp with
            | Throws _ => [DriveDelete id; Unlink temp]
            | Returns _ => [DriveDelete id; Unlink temp; Unlink out]
            end
        end |}).
Proof.
  intros Hi Ht Ho. run_monad.
  apply String.eqb_neq in Hi, Ht, Ho. rewrite Hi, Ht, Ho. cbn [negb].
  destruct (drive_files_delete w id) as [[]|]; cbn [locals trace];
    [|reflexivity].
  destruct (fs_unlink w temp) as [[]|]; cbn [locals trace];
    rewrite <- ?app_assoc; cbn [app]; [|reflexivity].
  destruct (fs_unlink w out) as [[]|]; cbn [locals trace];
    rewrite <- ?app_assoc; reflexivity.
Qed.

(** Whatever its arguments, [cleanupFiles] returns normally, leaves the
    variables alone and adds deletion attempts only. *)
Lemma cleanupFiles_returns (a b c : option string) (s : St) :
  exists evs,
    cleanupFiles w a b c s
    = (Returns tt, {| locals := locals s; trace := trace s ++ evs |})
    /\ forallb is_deletion evs = true.
Proof.
  run_monad.
  destruct a as [a|], b as [b|], c as [c|]; cbn [truthy];
    repeat match goal with
    | |- context [negb (String.eqb ?x "")] =>
        destruct (String.eqb x ""); cbn [negb]
    end;
    repeat match goal with
    | |- context [match ?o with Returns _ => _ | Throws _ => _ end] =>
        match o with
        | drive_files_delete _ _ => destruct o as [[]|]
        | fs_unlink _ _ => destruct o as [[]|]
        end; cbn [locals trace]
    end;
    rewrite <- ?app_assoc; cbn [app];
    first [ exists []; rewrite app_nil_r; destruct s; split; reflexivity
          | eexists; split; reflexivity ].
Qed.

Lemma cleanupFiles_attempts (a b c : option string) (s : St) :
  cleanupFiles w a b c s
  = (Returns tt,
     {| locals := locals s; trace := trace s ++ attempts w a b c |}).
Proof.
  unfold attempts. run_monad.
  destruct a as [a|], b as [b|], c as [c|]; cbn [truthy];
    repeat match goal with
    | |- context [negb (String.eqb ?x "")] =>
        destruct (String.eqb x ""); cbn [negb]
    end;
    repeat match goal with
    | |- context [match ?o with Returns _ => _ | Throws _ => _ end] =>
        match o with
        | drive_files_delete _ _ => destruct o as [[]|]
        | fs_unlink _ _ => destruct o as [[]|]
        end; cbn [locals trace initial app snd]
    end;
    cbn [locals trace initial app snd];
    rewrite <- ?app_assoc, ?app_nil_r; cbn [app];
    solve [reflexivity | destruct s; reflexivity].
Qed.

Lemma attempts_are_deletions (a b c : option string) :
  forallb is_deletion (attempts w a b c) = true.
Proof.
  unfold attempts.
  destruct (cleanupFiles_returns a b c initial) as (evs & E & D).
  now rewrite E.
Qed.

End Cleanup.

Lemma response_of_deletions (evs rest : list Event) :
  forallb is_deletion evs = true ->
  response_of (evs ++ rest) = response_of rest.
Proof.
  induction evs as [|e evs IH]; cbn [app forallb]; [reflexivity|].
  intros H. apply andb_prop in H. destruct H as [He H].
  destruct e; try discriminate; cbn [response_of]; auto.
Qed.

(* ================================================================== *)
(** ** The route handler *)

Section Handler.

Variable w : World.

(** The trace of the handler on an uploaded file, case by case on what the
    remote service and the file system answer. *)
Lemma convertHandler_trace (f : MulterFile) :
  let n := originalname (file_part f) in
  let m := mimetype (file_part f) in
  let p := Some (file_path f) in
  let name := outputFileName n in
  let out := join "uploads" name in
  let failed msg := Respond (Json 500 "Error converting file to PDF" (Some msg)) in
  trace (snd (convertHandler w (Some f) initial)) =
  DriveCreate n m ::
  match drive_files_create w n m with
  | Throws e =>
      attempts w None p None ++
      [failed ("Failed to upload to Google Drive: " ++ errorText e)]
  | Returns id =>
      if truthy id then
        let fileId := match id with Some i => i | None => "" end in
        SetTimeout 2000 :: DriveExport fileId ::
        match drive_files_export w fileId with
        | Throws e =>
            attempts w id p None ++
            [failed ("Failed to convert to PDF: " ++ errorText e)]
        | Returns pdf =>
            WriteFile out pdf ::
            match fs_writeFile w out pdf with
            | Throws e =>
                attempts w id p (Some out) ++
                [failed ("Failed to convert to PDF: " ++ errorText e)]
            | Returns _ =>
                match res_download_err w with
                | None => [Respond (Download out name)]
                | Some _ => []
                end ++ attempts w id p (Some out)
            end
        end
      else
        attempts w None p None ++
        [failed ("Failed to upload to Google Drive: "
                 ++ "Failed to upload file to Google Drive")]
  end.
Proof.
  intros n m p name out failed. subst n m p name out failed.
  unfold convertHandler, res_download, try_catch, bind, call, ret, emit,
    throw, get, assign.
  cbn [fst snd locals trace initial app set_tempFilePath set_uploadedFileId
       set_outputPath uploadedFileId tempFilePath outputPath].
  destruct (drive_files_create w _ _) as [id|e];
    cbn [fst snd locals trace app errorText negb
         uploadedFileId tempFilePath outputPath].
  2: { rewrite cleanupFiles_attempts. reflexivity. }
  destruct (truthy id);
    cbn [fst snd locals trace app errorText negb set_uploadedFileId
         set_outputPath uploadedFileId tempFilePath outputPath].
  2: { rewrite cleanupFiles_attempts. reflexivity. }
  destruct (drive_files_export w _) as [pdf|e];
    cbn [fst snd locals trace app errorText negb set_uploadedFileId
         set_outputPath uploadedFileId tempFilePath outputPath].
  2: { rewrite cleanupFiles_attempts. reflexivity. }
  destruct (fs_writeFile w _ _) as [[]|e];
    cbn [fst snd locals trace app errorText negb set_uploadedFileId
         set_outputPath uploadedFileId tempFilePath outputPath].
  - destruct (res_download_err w);
      cbn [fst snd locals trace app uploadedFileId tempFilePath outputPath];
      rewrite cleanupFiles_attempts; reflexivity.
  - rewrite cleanupFiles_attempts; reflexivity.
Qed.

End Handler.

(** A run in which every step succeeds, and a request without a file. *)
Example successful_flow :
  post_api_convert quiet (Some deck)
  = [DriveCreate "deck.pptx" (mimetype deck); SetTimeout 2000;
     DriveExport "1AbC"; WriteFile "uploads/deck.pdf" "%PDF-1.4";
     Respond (Download "uploads/deck.pdf" "deck.pdf");
     DriveDelete "1AbC"; Unlink "uploads/1700000000000-deck.pptx";
     Unlink "uploads/deck.pdf"].
Proof. reflexivity. Qed.

Example no_file_is_400 :
  post_api_convert quiet None = [Respond (Json 400 "No file uploaded" None)].
Proof. reflexivity. Qed.

(* ================================================================== *)
(** ** Requests that never reach the handler *)

(** C1 (as amended). An upload whose MIME type is neither of the two
    PowerPoint types and whose name ends neither in [.ppt] nor in [.pptx]
    is refused by the upload filter with the error "Only PowerPoint files
    are allowed!"; the route handler does not run, so the answer is not its
    400 but the 500 of the framework's final error handler, and no remote
    call (create, export or delete) is made. *)
Theorem wrong_type_rejected (w : World) (file : UploadPart) :
  mimetype file <> "application/vnd.ms-powerpoint" ->
  mimetype file <>
    "application/vnd.openxmlformats-officedocument.presentationml.presentation" ->
  JsString.endsWith (originalname file) ".ppt" = false ->
  JsString.endsWith (originalname file) ".pptx" = false ->
  fileFilter file = false
  /\ upload_single w (Some file)
     = NextError (ErrorObject "Only PowerPoint files are allowed!")
  /\ post_api_convert w (Some file)
     = [Respond (FinalHandler 500 "Only PowerPoint files are allowed!")]
  /\ remote_calls (post_api_convert w (Some file)) = [].
Proof.
  intros M1 M2 E1 E2.
  assert (F : fileFilter file = false).
  { unfold fileFilter. apply String.eqb_neq in M1, M2.
    now rewrite M1, M2, E1, E2. }
  unfold post_api_convert, upload_single. rewrite F. now repeat split.
Qed.

Lemma wrong_type_rejected_witness :
  post_api_convert quiet (Some notes)
  = [Respond (FinalHandler 500 "Only PowerPoint files are allowed!")].
Proof.
  refine (proj1 (proj2 (proj2 (wrong_type_rejected quiet notes _ _ _ _))));
    solve [discriminate | reflexivity].
Defined.

(** C1 as stated fails: the text file [notes.txt] is outside the allow-list
    by type and by extension (in any letter case), and the answer to its
    upload does not have status 400. *)
Lemma wrong_type_not_400 :
  ~ (forall (w : World) (file : UploadPart),
       mimetype file <> "application/vnd.ms-powerpoint" ->
       mimetype file <>
         "application/vnd.openxmlformats-officedocument.presentationml.presentation" ->
       JsString.endsWith (JsString.toLowerCase (originalname file)) ".ppt"
         = false ->
       JsString.endsWith (JsString.toLowerCase (originalname file)) ".pptx"
         = false ->
       (exists r, response_of (post_api_convert w (Some file)) = Some r
                  /\ statusCode r = 400%N)
       /\ remote_calls (post_api_convert w (Some file)) = []).
Proof.
  intros H.
  destruct (H quiet notes) as [(r & R & S) _];
    try discriminate; try reflexivity.
  vm_compute in R. injection R as <-. discriminate S.
Qed.

(** C6. An upload larger than the server's ceiling of 50 MiB
    (50 * 1024 * 1024 bytes) is rejected by the upload middleware: the
    route handler does not run and the run of the request contains no
    remote create, export or delete call. *)
Theorem oversize_rejected_before_remote_calls (w : World) (file : UploadPart) :
  (50 * 1024 * 1024 < size file)%N ->
  (exists e, upload_single w (Some file) = NextError e)
  /\ (exists r, post_api_convert w (Some file) = [Respond r])
  /\ remote_calls (post_api_convert w (Some file)) = [].
Proof.
  intros L. unfold post_api_convert, upload_single.
  destruct (fileFilter file).
  - change (50 * 1024 * 1024)%N with fileSizeLimit in L.
    apply N.ltb_lt in L. rewrite L. repeat split; eexists; reflexivity.
  - repeat split; eexists; reflexivity.
Qed.

Lemma oversize_rejected_before_remote_calls_witness :
  remote_calls (post_api_convert quiet (Some huge)) = [].
Proof.
  refine (proj2 (proj2 (oversize_rejected_before_remote_calls quiet huge _))).
  reflexivity.
Defined.

(* ================================================================== *)
(** ** Requests that reach the handler *)

Lemma post_api_convert_accepted (w : World) (file : UploadPart) :
  fileFilter file = true ->
  (size file <= fileSizeLimit)%N ->
  post_api_convert w (Some file)
  = trace (snd (convertHandler w
                  (Some {| file_part := file; file_path := uploadPath w file |})
                  initial)).
Proof.
  intros F L. unfold post_api_convert, upload_single. rewrite F.
  apply N.ltb_ge in L. now rewrite L.
Qed.

Lemma attempts_start_with_delete (w : World) (id : string)
    (b c : option string) :
  id <> "" ->
  attempts w (Some id) b c
  = DriveDelete id ::
    match drive_files_delete w id with
    | Throws _ => []
    | Returns _ => attempts w None b c
    end.
Proof.
  intros Hi. apply String.eqb_neq in Hi.
  unfold attempts, cleanupFiles, try_catch, bind, call, ret.
  cbn [truthy]. rewrite Hi. cbn [negb].
  destruct (drive_files_delete w id) as [[]|];
    cbn [fst snd locals trace initial app]; [|reflexivity].
  destruct b as [b|], c as [c|]; cbn [truthy];
    repeat match goal with
    | |- context [negb (String.eqb ?x "")] =>
        destruct (String.eqb x ""); cbn [negb]
    end;
    repeat match goal with
    | |- context [match ?o with Returns _ => _ | Throws _ => _ end] =>
        match o with
        | fs_unlink _ _ => destruct o as [[]|]
        end; cbn [fst snd locals trace initial app]
    end;
    reflexivity.
Qed.

(** C3. When the remote export call throws after the remote create call
    returned a file id, the handler answers with status 500 and a JSON body
    whose error text is "Failed to convert to PDF" followed by the text of
    the thrown error, and before answering it attempts to delete the
    remote file it created, by that id. *)
Theorem export_failure_responds_500
    (w : World) (file : UploadPart) (id : string) (e : Thrown) :
  fileFilter file = true ->
  (size file <= fileSizeLimit)%N ->
  drive_files_create w (originalname file) (mimetype file)
    = Returns (Some id) ->
  id <> "" ->
  drive_files_export w id = Throws e ->
  let answer :=
    Json 500 "Error converting file to PDF"
         (Some ("Failed to convert to PDF" ++ ": " ++ errorText e)) in
  exists rest,
    post_api_convert w (Some file)
    = ([DriveCreate (originalname file) (mimetype file); SetTimeout 2000;
        DriveExport id; DriveDelete id] ++ rest ++ [Respond answer])%list
    /\ forallb is_deletion rest = true
    /\ response_of (post_api_convert w (Some file)) = Some answer
    /\ statusCode answer = 500%N.
Proof.
  intros F L C Hi X answer.
  rewrite (post_api_convert_accepted w file F L).
  rewrite convertHandler_trace. cbn [file_part file_path].
  rewrite C.
  assert (T : truthy (Some id) = true).
  { cbn [truthy]. apply String.eqb_neq in Hi. now rewrite Hi. }
  rewrite T. cbv zeta. rewrite X.
  rewrite (attempts_start_with_delete w id _ _ Hi).
  set (rest := match drive_files_delete w id with
               | Returns _ => attempts w None (Some (uploadPath w file)) None
               | Throws _ => []
               end).
  assert (D : forallb is_deletion rest = true).
  { subst rest. destruct (drive_files_delete w id);
      [apply attempts_are_deletions | reflexivity]. }
  exists rest. repeat split.
  - exact D.
  - cbn [response_of app].
    now rewrite (response_of_deletions rest _ D).
Qed.

Lemma export_failure_responds_500_witness :
  response_of (post_api_convert exportFails (Some deck))
  = Some (Json 500 "Error converting file to PDF"
               (Some "Failed to convert to PDF: socket hang up"))
  /\ In (DriveDelete "1AbC") (post_api_convert exportFails (Some deck)).
Proof.
  destruct (export_failure_responds_500 exportFails deck "1AbC"
              (ErrorObject "socket hang up"))
    as (rest & E & _ & R & _);
    try reflexivity; try discriminate.
  split; [exact R|]. rewrite E. cbn. tauto.
Defined.

(** The answer of a request is the same in two environments that differ
    only in how deletions answer. *)
Lemma response_ignores_deletions (w w' : World) (body : option UploadPart) :
  same_but_deletions w w' ->
  response_of (post_api_convert w body)
  = response_of (post_api_convert w' body).
Proof.
  intros (T & C & X & W & D).
  destruct body as [file|]; [|reflexivity].
  unfold post_api_convert, upload_single.
  destruct (fileFilter file); [|reflexivity].
  destruct (fileSizeLimit <? size file)%N; [reflexivity|].
  rewrite !convertHandler_trace. cbn [file_part file_path].
  unfold storage_filename. rewrite <- T, <- C, <- X, <- W, <- D.
  destruct (drive_files_create w _ _) as [id|e]; cbn [response_of].
  2: { now rewrite !response_of_deletions by apply attempts_are_deletions. }
  destruct (truthy id); cbv zeta; cbn [response_of].
  2: { now rewrite !response_of_deletions by apply attempts_are_deletions. }
  destruct (drive_files_export w _) as [pdf|e]; cbn [response_of].
  2: { now rewrite !response_of_deletions by apply attempts_are_deletions. }
  destruct (fs_writeFile w _ _) as [[]|e]; cbn [response_of].
  - destruct (res_download_err w); cbn [app response_of]; [|reflexivity].
    assert (Z : forall w0 a b c, response_of (attempts w0 a b c) = None).
    { intros. rewrite <- (app_nil_r (attempts _ _ _ _)).
      now rewrite response_of_deletions by apply attempts_are_deletions. }
    now rewrite !Z.
  - now rewrite !response_of_deletions by apply attempts_are_deletions.
Qed.

(** C2 (as amended). [cleanupFiles] attempts the three deletions (the
    remote file by id, the uploaded temp file, the output file) in that
    order inside one [try] block: the first deletion that fails ends the
    attempts, and a later deletion is attempted only when the earlier ones
    succeeded.  It never throws, and the answer the HTTP caller receives is
    the same whatever the deletions do. *)
Theorem cleanupFiles_sequential_and_silent
    (w : World) (id temp out : string) (s : St) :
  id <> "" -> temp <> "" -> out <> "" ->
  cleanupFiles w (Some id) (Some temp) (Some out) s
  = (Returns tt,
     {| locals := locals s;
        trace := trace s ++
          match drive_files_delete w id with
          | Throws _ => [DriveDelete id]
          | Returns _ =>
              match fs_unlink w temp with
              | Throws _ => [DriveDelete id; Unlink temp]
              | Returns _ => [DriveDelete id; Unlink temp; Unlink out]
              end
          end |})
  /\ (forall a b c s0, fst (cleanupFiles w a b c s0) = Returns tt)
  /\ (forall w' body, same_but_deletions w w' ->
        response_of (post_api_convert w body)
        = response_of (post_api_convert w' body)).
Proof.
  intros Hi Ht Ho. split; [now apply cleanupFiles_all_set|]. split.
  - intros a b c s0. now rewrite cleanupFiles_attempts.
  - intros w' body. apply response_ignores_deletions.
Qed.

Lemma cleanupFiles_sequential_and_silent_witness :
  cleanupFiles deleteFails (Some "1AbC")
    (Some "uploads/1700000000000-deck.pptx") (Some "uploads/deck.pdf") initial
  = (Returns tt, {| locals := locals initial;
                    trace := [DriveDelete "1AbC"] |}).
Proof.
  refine (proj1 (cleanupFiles_sequential_and_silent deleteFails "1AbC"
                   "uploads/1700000000000-deck.pptx" "uploads/deck.pdf"
                   initial _ _ _)); discriminate.
Defined.

(** C2 as stated fails: when the remote delete call throws, neither local
    file receives a deletion attempt. *)
Lemma cleanupFiles_not_independent :
  ~ (forall (w : World) (id temp out : string) (s : St),
       id <> "" -> temp <> "" -> out <> "" ->
       let tr := trace (snd (cleanupFiles w (Some id) (Some temp)
                                          (Some out) s)) in
       In (DriveDelete id) tr /\ In (Unlink temp) tr /\ In (Unlink out) tr).
Proof.
  intros H.
  destruct (H deleteFails "1AbC" "uploads/1700000000000-deck.pptx"
              "uploads/deck.pdf" initial) as (_ & U & _);
    try discriminate.
  vm_compute in U. destruct U as [U|[]]. discriminate U.
Qed.

(** The answer of a run in which every step succeeds. *)
Lemma successful_response
    (w : World) (file : UploadPart) (id pdf : string) :
  fileFilter file = true ->
  (size file <= fileSizeLimit)%N ->
  drive_files_create w (originalname file) (mimetype file)
    = Returns (Some id) ->
  id <> "" ->
  drive_files_export w id = Returns pdf ->
  fs_writeFile w (pdfPath file) pdf = Returns tt ->
  res_download_err w = None ->
  response_of (post_api_convert w (Some file))
  = Some (Download (pdfPath file) (outputFileName (originalname file))).
Proof.
  intros F L C Hi X W D.
  rewrite (post_api_convert_accepted w file F L).
  rewrite convertHandler_trace. cbn [file_part file_path].
  rewrite C. cbn [truthy]. apply String.eqb_neq in Hi. rewrite Hi.
  cbn [negb]. cbv zeta. rewrite X. fold (pdfPath file). rewrite W, D.
  reflexivity.
Qed.

(** Whatever a run sends as a download, it sends under the output file
    name, from the PDF path. *)
Lemma download_name (w : World) (file : UploadPart) (path name : string) :
  In (Respond (Download path name)) (post_api_convert w (Some file)) ->
  path = pdfPath file /\ name = outputFileName (originalname file).
Proof.
  assert (A : forall a b c,
             ~ In (Respond (Download path name)) (attempts w a b c)).
  { intros a b c H.
    pose proof (proj1 (forallb_forall _ _) (attempts_are_deletions w a b c)
                  _ H) as K.
    discriminate K. }
  unfold post_api_convert, upload_single.
  destruct (fileFilter file); [|intros [E|[]]; discriminate E].
  destruct (fileSizeLimit <? size file)%N; [intros [E|[]]; discriminate E|].
  rewrite convertHandler_trace. cbn [file_part file_path].
  fold (pdfPath file).
  assert (tail : forall a b c msg,
            ~ In (Respond (Download path name))
                (attempts w a b c
                 ++ [Respond (Json 500 "Error converting file to PDF"
                                   (Some msg))])).
  { intros a b c msg H. apply in_app_or in H.
    destruct H as [H|[E|[]]]; [now apply A in H | discriminate E]. }
  destruct (drive_files_create w _ _) as [id|e].
  2: { intros [E|H]; [discriminate E | now apply tail in H]. }
  destruct (truthy id); cbv zeta.
  2: { intros [E|H]; [discriminate E | now apply tail in H]. }
  destruct (drive_files_export w _) as [pdf|e].
  2: { intros [E|[E|[E|H]]]; try discriminate E. now apply tail in H. }
  destruct (fs_writeFile w _ _) as [[]|e].
  2: { intros [E|[E|[E|[E|H]]]]; try discriminate E. now apply tail in H. }
  intros [E|[E|[E|[E|H]]]]; try discriminate E.
  destruct (res_download_err w); cbn [app] in H.
  - now apply A in H.
  - destruct H as [E|H]; [|now apply A in H].
    injection E as <- <-. now split.
Qed.

(** C10. The derivation of the output file name only replaces a trailing
    [.ppt] or [.pptx]: a name that does not end in either, in any letter
    case, is left unchanged, with no [.pdf] appended, by the server and by
    the client.  So whatever download a run sends for a file of such a
    name, it sends under the original name; and a file of such a name
    that is accepted by its MIME type, is smaller than the size limit and
    is converted, is sent back under its original name when the transfer
    of the download succeeds. *)
Theorem outputFileName_unchanged
    (w : World) (file : UploadPart) (id pdf : string) :
  JsString.endsWith (JsString.toLowerCase (originalname file)) ".ppt"
    = false ->
  JsString.endsWith (JsString.toLowerCase (originalname file)) ".pptx"
    = false ->
  outputFileName (originalname file) = originalname file
  /\ Client.downloadName (originalname file) = originalname file
  /\ (forall path name,
        In (Respond (Download path name)) (post_api_convert w (Some file)) ->
        path = join "uploads" (originalname file)
        /\ name = originalname file)
  /\ ((mimetype file = "application/vnd.ms-powerpoint"
       \/ mimetype file =
          "application/vnd.openxmlformats-officedocument.presentationml.presentation") ->
      (size file < fileSizeLimit)%N ->
      drive_files_create w (originalname file) (mimetype file)
        = Returns (Some id) ->
      id <> "" ->
      drive_files_export w id = Returns pdf ->
      fs_writeFile w (join "uploads" (originalname file)) pdf = Returns tt ->
      res_download_err w = None ->
      response_of (post_api_convert w (Some file))
      = Some (Download (join "uploads" (originalname file))
                       (originalname file))).
Proof.
  intros H1 H2.
  pose proof (outputFileName_keeps _ H1 H2) as K.
  assert (P : pdfPath file = join "uploads" (originalname file)).
  { unfold pdfPath, outputFileName. now rewrite K. }
  split; [exact K|]. split; [exact K|]. split.
  - intros path name H.
    destruct (download_name w file path name H) as [-> ->].
    split; [exact P | exact K].
  - intros M L C Hi X W D.
    assert (F : fileFilter file = true).
    { unfold fileFilter. destruct M as [-> | ->]; reflexivity. }
    rewrite <- P in W. apply N.lt_le_incl in L.
    rewrite (successful_response w file id pdf F L C Hi X W D).
    unfold outputFileName. now rewrite P, K.
Qed.

Lemma outputFileName_unchanged_witness :
  outputFileName "talk.key" = "talk.key"
  /\ Client.downloadName "talk.key" = "talk.key"
  /\ response_of (post_api_convert quiet (Some keynote))
     = Some (Download "uploads/talk.key" "talk.key").
Proof.
  destruct (outputFileName_unchanged quiet keynote "1AbC" "%PDF-1.4")
    as (A & B & _ & C); try reflexivity.
  split; [exact A|]. split; [exact B|].
  apply C; try reflexivity; try discriminate.
  left; reflexivity.
Defined.

(* ================================================================== *)
(** ** Extension checks: server filter and client pre-check *)

Lemma endsWith_append_false (base x y : string) :
  JsString.endsWith x y = false ->
  JsString.endsWith y x = false ->
  JsString.endsWith (base ++ x) y = false.
Proof.
  intros Hxy Hyx.
  destruct (JsString.endsWith (base ++ x) y) eqn:E; [|reflexivity].
  apply endsWith_inv in E. destruct E as [b E].
  destruct (Nat.le_ge_cases (String.length x) (String.length y)) as [L|L].
  - destruct (append_tails _ _ _ _ E L) as [c ->].
    now rewrite endsWith_append in Hyx.
  - symmetry in E. destruct (append_tails _ _ _ _ E L) as [c ->].
    now rewrite endsWith_append in Hxy.
Qed.

(** C9. The extension check of the server's upload filter is
    case-sensitive: a file whose MIME type is outside the allow-list is
    accepted exactly when its name ends in lower-case [.ppt] or [.pptx],
    and is refused when its name ends in [.PPT] or [.PPTX]; the check of
    the client's ConversionService lowers the name first, so the same file
    passes the client's check and fails the server's filter. *)
Theorem extension_check_case (file : UploadPart) :
  mimetype file <> "application/vnd.ms-powerpoint" ->
  mimetype file <>
    "application/vnd.openxmlformats-officedocument.presentationml.presentation" ->
  (fileFilter file = true <->
     JsString.endsWith (originalname file) ".ppt" = true
     \/ JsString.endsWith (originalname file) ".pptx" = true)
  /\ (forall base : string,
        originalname file = base ++ ".PPT"
        \/ originalname file = base ++ ".PPTX" ->
        fileFilter file = false
        /\ Client.isValidPowerPointFile
             {| Client.name := originalname file;
                Client.type := mimetype file;
                Client.size := size file |} = true).
Proof.
  intros M1 M2. apply String.eqb_neq in M1, M2.
  assert (F : fileFilter file
              = JsString.endsWith (originalname file) ".ppt"
                || JsString.endsWith (originalname file) ".pptx").
  { unfold fileFilter. now rewrite M1, M2. }
  split.
  - rewrite F. apply orb_true_iff.
  - intros base H. rewrite F.
    unfold Client.isValidPowerPointFile, JsString.includes.
    cbn [existsb Client.name Client.type]. rewrite M1, M2.
    destruct H as [-> | ->];
      rewrite !endsWith_append_false by reflexivity;
      rewrite toLowerCase_append;
      (split; [reflexivity|]); cbn [JsString.toLowerCase];
      change (String (JsString.lowerChar ".") _) with ".ppt" ||
      change (String (JsString.lowerChar ".") _) with ".pptx".
    + now rewrite endsWith_append.
    + rewrite endsWith_append. now rewrite !orb_true_r.
Qed.

Lemma extension_check_case_witness :
  fileFilter {| originalname := "Slides.PPT";
                mimetype := "application/octet-stream"; size := 4096 |}
  = false
  /\ Client.isValidPowerPointFile
       {| Client.name := "Slides.PPT";
          Client.type := "application/octet-stream";
          Client.size := 4096 |} = true.
Proof.
  refine (proj2 (extension_check_case
                   {| originalname := "Slides.PPT";
                      mimetype := "application/octet-stream";
                      size := 4096 |} _ _) "Slides" _);
    solve [discriminate | left; reflexivity].
Defined.

(** The type check of FileUploadService, which the converter form runs on
    selection, is case-sensitive as the server's is. *)
Remark validateFileType_is_fileFilter (file : UploadPart) :
  Client.validateFileType
    {| Client.name := originalname file; Client.type := mimetype file;
       Client.size := size file |}
  = fileFilter file.
Proof.
  unfold Client.validateFileType, fileFilter, JsString.includes,
    Client.validFileTypes.
  cbn [existsb Client.name Client.type]. now rewrite orb_false_r.
Qed.

(* ================================================================== *)
(** ** The client form *)

Section Form.

Import Client.

(** C7. On selection, a file that fails the type check or the size check
    is rejected: the error message is set to the message of the failed
    check and [selectedFile] is set to null.  The size check accepts a file
    exactly when its size is at most 10 MiB (10 * 1024 * 1024 bytes),
    which is below the server's ceiling of 50 MiB. *)
Theorem onFileSelected_rejects
    (c : Component) (file : File) (rest : list File) :
  validateFileType file = false \/ validateFileSize file = false ->
  let c' := onFileSelected c (file :: rest) in
  selectedFile c' = None
  /\ (errorMessage c' = "Please select a PowerPoint file (.ppt or .pptx)"
      \/ errorMessage c' = "File size exceeds the maximum limit of 10MB")
  /\ errorMessage c' <> ""
  /\ (forall f : File,
        validateFileSize f = true <-> (Client.size f <= 10 * 1024 * 1024)%N)
  /\ (maxFileSize < fileSizeLimit)%N.
Proof.
  intros H c'. subst c'. unfold onFileSelected.
  assert (S : forall f : File,
             validateFileSize f = true
             <-> (Client.size f <= 10 * 1024 * 1024)%N)
    by (intros f; apply N.leb_le).
  destruct (validateFileType file); cbn [negb].
  - destruct H as [H|H]; [discriminate|]. rewrite H. cbn [negb].
    cbn [selectedFile errorMessage].
    repeat split; auto; try discriminate; apply S.
  - cbn [selectedFile errorMessage].
    repeat split; auto; try discriminate; apply S.
Qed.

Lemma onFileSelected_rejects_witness :
  selectedFile
    (onFileSelected fresh
       [{| name := "big.pptx"; type := "application/vnd.ms-powerpoint";
           size := 10 * 1024 * 1024 + 1 |}]) = None.
Proof.
  refine (proj1 (onFileSelected_rejects fresh
                   {| name := "big.pptx";
                      type := "application/vnd.ms-powerpoint";
                      size := 10 * 1024 * 1024 + 1 |} [] _)).
  right; reflexivity.
Defined.

End Form.

(* ================================================================== *)
(** ** The simulated progress *)

Section Progress.

Import Client.

Lemma run_app (c : Component) (a b : list Signal) :
  run c (a ++ b) = run (run c a) b.
Proof. apply fold_left_app. Qed.

(** Ticks move a progress that is a multiple of ten towards 90, ten at a
    time, and leave the timer set. *)
Lemma run_ticks (k : nat) :
  forall (c : Component) (j : N),
    progressInterval c = true ->
    uploadProgress c = (10 * j)%N -> (j <= 9)%N ->
    uploadProgress (run c (repeat Tick k))
      = (10 * N.min (j + N.of_nat k) 9)%N
    /\ progressInterval (run c (repeat Tick k)) = true
    /\ subscribed (run c (repeat Tick k)) = subscribed c.
Proof.
  induction k as [|k IH]; intros c j T P J.
  - cbn [repeat run fold_left]. repeat split; auto. rewrite P. lia.
  - cbn [repeat run fold_left deliver]. rewrite T.
    fold (run (onTick c) (repeat Tick k)).
    unfold onTick.
    destruct (N.ltb_spec (uploadProgress c) 90) as [L|L].
    + match goal with
      | |- context [run ?c' (repeat Tick k)] =>
          destruct (IH c' (j + 1)%N) as (A & B & C);
            cbn [progressInterval uploadProgress subscribed] in *;
            [exact T | lia | lia |]
      end.
      rewrite A. repeat split; [lia | exact B | exact C].
    + destruct (IH c j T P J) as (A & B & C).
      rewrite A. repeat split; [lia | exact B | exact C].
Qed.

(** Only the arrival of the response sets the progress to 100. *)
Lemma progress_100_needs_response (signals : list Signal) :
  forall c : Component,
    uploadProgress (run c signals) = 100%N ->
    uploadProgress c = 100%N \/ In ResponseArrived signals.
Proof.
  induction signals as [|s signals IH]; intros c H.
  - now left.
  - cbn [run fold_left] in H. fold (run (deliver c s) signals) in H.
    destruct (IH _ H) as [E|E]; [|right; now right].
    destruct s; cbn [deliver] in E.
    + destruct (progressInterval c); [|now left].
      unfold onTick in E.
      destruct (N.ltb_spec (uploadProgress c) 90) as [L|L];
        [cbn [uploadProgress] in E; lia | now left].
    + right. now left.
    + destruct (subscribed c); [discriminate E | now left].
Qed.

(** C8. After [convertToPdf] started a request, and until the response or
    an error arrives, the progress changes on timer ticks only: after [k]
    ticks it is [10 * min k 9], so it advances in steps of ten and never
    exceeds 90.  It becomes 100 only by the arrival of the response, which
    also clears the timer; an error sets it to 0 and clears the timer, and
    later ticks no longer change it. *)
Theorem simulated_progress (c : Component) (file : File) :
  selectedFile c = Some file ->
  let c0 := convertToPdf c in
  uploadProgress c0 = 0%N
  /\ progressInterval c0 = true
  /\ (forall k : nat,
        uploadProgress (run c0 (repeat Tick k))
          = (10 * N.min (N.of_nat k) 9)%N
        /\ (uploadProgress (run c0 (repeat Tick k)) <= 90)%N
        /\ (uploadProgress (run c0 (repeat Tick (S k)))
              = uploadProgress (run c0 (repeat Tick k))
            \/ uploadProgress (run c0 (repeat Tick (S k)))
               = (uploadProgress (run c0 (repeat Tick k)) + 10)%N))
  /\ (forall signals : list Signal,
        uploadProgress (run c0 signals) = 100%N ->
        In ResponseArrived signals)
  /\ (forall k : nat,
        let c1 := run c0 (repeat Tick k ++ [ResponseArrived]) in
        uploadProgress c1 = 100%N /\ progressInterval c1 = false)
  /\ (forall (k j : nat) (message : string),
        let c2 := run c0 (repeat Tick k ++ [Failed message]) in
        uploadProgress c2 = 0%N
        /\ progressInterval c2 = false
        /\ uploadProgress (run c2 (repeat Tick j)) = 0%N).
Proof.
  intros Sel c0. subst c0. unfold convertToPdf. rewrite Sel. cbv zeta.
  set (c0 := {| isLoading := true; errorMessage := "" |}).
  assert (T : forall k,
             uploadProgress (run c0 (repeat Tick k))
               = (10 * N.min (N.of_nat k) 9)%N
             /\ progressInterval (run c0 (repeat Tick k)) = true
             /\ subscribed (run c0 (repeat Tick k)) = true).
  { intros k. apply (run_ticks k c0 0%N); [reflexivity | reflexivity | lia]. }
  split; [reflexivity|]. split; [reflexivity|]. split; [|split; [|split]].
  - intros k. destruct (T k) as (A & _). destruct (T (S k)) as (B & _).
    rewrite A, B. repeat split; lia.
  - intros signals H.
    destruct (progress_100_needs_response signals c0 H) as [E|E];
      [discriminate E | exact E].
  - intros k. rewrite run_app.
    destruct (T k) as (_ & _ & U).
    cbn [run fold_left deliver]. rewrite U. split; reflexivity.
  - intros k j message. rewrite run_app.
    destruct (T k) as (_ & _ & U).
    cbn [run fold_left deliver]. rewrite U.
    repeat split.
    induction j as [|j IH]; [reflexivity|].
    cbn [repeat run fold_left deliver progressInterval onError]. exact IH.
Qed.

Lemma simulated_progress_witness :
  uploadProgress
    (run (convertToPdf
            (onFileSelected fresh
               [{| name := "deck.pptx"; type := "";
                   size := 1024 |}]))
         (repeat Tick 12)) = 90%N.
Proof.
  refine (proj1 (proj1 (proj2 (proj2
           (simulated_progress
              (onFileSelected fresh
                 [{| name := "deck.pptx"; type := ""; size := 1024 |}])
              {| name := "deck.pptx"; type := ""; size := 1024 |} _))) 12)).
  reflexivity.
Defined.

End Progress.

(* ================================================================== *)
(** ** Scratch paths *)

Section ScratchPaths.

Lemma string_of_uint_no_dash (d : Decimal.uint) :
  ~ In "-"%char (list_ascii_of_string (NilEmpty.string_of_uint d)).
Proof.
  induction d; cbn [NilEmpty.string_of_uint list_ascii_of_string In];
    try tauto; intros [H|H]; try discriminate H; contradiction.
Qed.

Lemma Number_toString_inj (a b : N) :
  Number_toString a = Number_toString b -> a = b.
Proof.
  unfold Number_toString. intros H.
  apply DecimalN.Unsigned.to_uint_inj.
  pose proof (NilEmpty.usu (N.to_uint a)) as A.
  pose proof (NilEmpty.usu (N.to_uint b)) as B.
  rewrite H in A. congruence.
Qed.

(** A string is cut at its first dash in one way only. *)
Lemma cut_at_first_dash (d1 : string) :
  forall d2 n1 n2,
    ~ In "-"%char (list_ascii_of_string d1) ->
    ~ In "-"%char (list_ascii_of_string d2) ->
    d1 ++ String "-" n1 = d2 ++ String "-" n2 ->
    d1 = d2 /\ n1 = n2.
Proof.
  induction d1 as [|c d1 IH]; intros d2 n1 n2 H1 H2 E.
  - destruct d2 as [|c2 d2]; cbn in E.
    + injection E as ->. now split.
    + injection E as <- _. exfalso. apply H2. now left.
  - destruct d2 as [|c2 d2]; cbn in E.
    + injection E as -> _. exfalso. apply H1. now left.
    + injection E as -> E.
      destruct (IH d2 n1 n2) as [-> ->]; auto.
      * intros K. apply H1. now right.
      * intros K. apply H2. now right.
Qed.

Lemma storage_filename_inj (w1 w2 : World) (f1 f2 : UploadPart) :
  storage_filename w1 f1 = storage_filename w2 f2 ->
  Date_now w1 = Date_now w2 /\ originalname f1 = originalname f2.
Proof.
  unfold storage_filename. intros E.
  apply cut_at_first_dash in E; try apply string_of_uint_no_dash.
  destruct E as [E ->]. split; [now apply Number_toString_inj | reflexivity].
Qed.

(** C5 (as amended). The path under which an upload is stored is
    [uploads/] followed by the upload timestamp, a dash and the original
    file name: the stored uploads of two requests have the same path
    exactly when the two requests have the same timestamp and the same
    original file name, so two requests that differ in either have
    distinct upload paths. *)
Theorem uploadPath_distinct (w1 w2 : World) (f1 f2 : UploadPart) :
  uploadPath w1 f1
    = "uploads/" ++ Number_toString (Date_now w1) ++ "-" ++ originalname f1
  /\ (uploadPath w1 f1 = uploadPath w2 f2 <->
      Date_now w1 = Date_now w2 /\ originalname f1 = originalname f2)
  /\ (Date_now w1 <> Date_now w2 \/ originalname f1 <> originalname f2 ->
      uploadPath w1 f1 <> uploadPath w2 f2).
Proof.
  assert (U : forall w f, uploadPath w f = "uploads/" ++ storage_filename w f)
    by reflexivity.
  assert (I : uploadPath w1 f1 = uploadPath w2 f2 ->
              Date_now w1 = Date_now w2 /\ originalname f1 = originalname f2).
  { rewrite !U. intros E.
    apply (append_same_length "uploads/" "uploads/") in E.
    - apply storage_filename_inj. tauto.
    - apply (f_equal String.length) in E.
      rewrite !length_append in E. cbn [String.length] in E. lia. }
  split; [reflexivity|]. split.
  - split; [exact I|].
    intros [T N]. rewrite !U. unfold storage_filename. now rewrite T, N.
  - intros D E. apply I in E. tauto.
Qed.

Lemma uploadPath_distinct_witness :
  uploadPath quiet deck <> uploadPath later deck.
Proof.
  refine (proj2 (proj2 (uploadPath_distinct quiet later deck deck)) _).
  left. discriminate.
Defined.

(** C5 as stated fails: two requests that arrive at different times with
    the files [deck.pptx] and [deck.ppt] both write [uploads/deck.pdf]. *)
Lemma scratch_paths_collide :
  ~ (forall (w1 w2 : World) (f1 f2 : UploadPart),
       Date_now w1 <> Date_now w2 \/ f1 <> f2 ->
       forall p : string,
         In p (scratchPaths w1 f1) -> ~ In p (scratchPaths w2 f2)).
Proof.
  intros H.
  apply (H quiet later deck deckOld) with (p := "uploads/deck.pdf").
  - left. discriminate.
  - right. left. reflexivity.
  - right. left. reflexivity.
Qed.

End ScratchPaths.

(* ================================================================== *)
(** ** The handler: further properties of its runs *)

Section Runs.

Variable w : World.

Lemma uploadPath_unfold (file : UploadPart) :
  uploadPath w file = "uploads/" ++ storage_filename w file.
Proof. reflexivity. Qed.

Lemma pdfPath_unfold (file : UploadPart) :
  pdfPath file = "uploads/" ++ outputFileName (originalname file).
Proof. reflexivity. Qed.

Lemma truthy_set (id : string) : id <> "" -> truthy (Some id) = true.
Proof.
  intros H. cbn [truthy]. apply String.eqb_neq in H. now rewrite H.
Qed.

(** Without a remote id, cleanup only unlinks the paths it is given. *)
Lemma attempts_local (p : string) (c : option string) :
  p <> "" ->
  attempts w None (Some p) c
  = Unlink p ::
    match fs_unlink w p with
    | Throws _ => []
    | Returns _ =>
        match c with
        | Some q => if truthy c then [Unlink q] else []
        | None => []
        end
    end.
Proof.
  intros Hp. apply String.eqb_neq in Hp.
  unfold attempts, cleanupFiles, try_catch, bind, call, ret.
  cbn [truthy]. rewrite Hp. cbn [negb].
  destruct (fs_unlink w p) as [[]|];
    cbn [fst snd locals trace initial app]; [|reflexivity].
  destruct c as [q|]; cbn [truthy]; [|reflexivity].
  destruct (String.eqb q ""); cbn [negb]; [reflexivity|].
  destruct (fs_unlink w q) as [[]|]; reflexivity.
Qed.

Lemma attempts_all_set (id temp out : string) :
  id <> "" -> temp <> "" -> out <> "" ->
  attempts w (Some id) (Some temp) (Some out)
  = match drive_files_delete w id with
    | Throws _ => [DriveDelete id]
    | Returns _ =>
        match fs_unlink w temp with
        | Throws _ => [DriveDelete id; Unlink temp]
        | Returns _ => [DriveDelete id; Unlink temp; Unlink out]
        end
    end.
Proof.
  intros Hi Ht Ho. unfold attempts.
  now rewrite (cleanupFiles_all_set w id temp out initial Hi Ht Ho).
Qed.

(** Every deletion attempt is for one of the three values given. *)
Lemma attempts_members (a b c : option string) (e : Event) :
  In e (attempts w a b c) ->
  (exists id, a = Some id /\ e = DriveDelete id)
  \/ (exists p, (b = Some p \/ c = Some p) /\ e = Unlink p).
Proof.
  unfold attempts. run_monad.
  destruct a as [a|], b as [b|], c as [c|]; cbn [truthy];
    repeat match goal with
    | |- context [negb (String.eqb ?x "")] =>
        destruct (String.eqb x ""); cbn [negb]
    end;
    repeat match goal with
    | |- context [match ?o with Returns _ => _ | Throws _ => _ end] =>
        match o with
        | drive_files_delete _ _ => destruct o as [[]|]
        | fs_unlink _ _ => destruct o as [[]|]
        end; cbn [locals trace initial app snd]
    end;
    cbn [locals trace initial app snd In];
    intros H;
    repeat match goal with
    | H : _ \/ _ |- _ => destruct H as [H|H]
    | H : False |- _ => contradiction
    end; subst e; eauto 6.
Qed.

Lemma uploadPath_nonempty (file : UploadPart) : uploadPath w file <> "".
Proof. rewrite uploadPath_unfold. discriminate. Qed.

Lemma pdfPath_nonempty (file : UploadPart) : pdfPath file <> "".
Proof. rewrite pdfPath_unfold. discriminate. Qed.

End Runs.

Lemma filter_response_deletions (evs : list Event) :
  forallb is_deletion evs = true -> filter is_response evs = [].
Proof.
  induction evs as [|e evs IH]; cbn [forallb filter]; [reflexivity|].
  intros H. apply andb_prop in H. destruct H as [He H].
  destruct e; try discriminate He; cbn [is_response]; auto.
Qed.

(** X1. A run in which create, export and the write of the PDF succeed,
    for an accepted upload smaller than the size limit: create, a wait of
    two seconds, export of the created id, the write of the PDF, the
    download as the answer when its transfer succeeds and no answer when
    it fails, and only then the cleanup, which makes one remote delete
    call, for the created id, and unlinks the upload and the PDF as long
    as the deletion before succeeded. *)
Theorem successful_run (w : World) (file : UploadPart) (id pdf : string) :
  fileFilter file = true ->
  (size file < fileSizeLimit)%N ->
  drive_files_create w (originalname file) (mimetype file)
    = Returns (Some id) ->
  id <> "" ->
  drive_files_export w id = Returns pdf ->
  fs_writeFile w (pdfPath file) pdf = Returns tt ->
  post_api_convert w (Some file)
  = ([DriveCreate (originalname file) (mimetype file); SetTimeout 2000;
      DriveExport id; WriteFile (pdfPath file) pdf]
     ++ match res_download_err w with
        | None =>
            [Respond (Download (pdfPath file)
                        (outputFileName (originalname file)))]
        | Some _ => []
        end
     ++ match drive_files_delete w id with
        | Throws _ => [DriveDelete id]
        | Returns _ =>
            match fs_unlink w (uploadPath w file) with
            | Throws _ => [DriveDelete id; Unlink (uploadPath w file)]
            | Returns _ =>
                [DriveDelete id; Unlink (uploadPath w file);
                 Unlink (pdfPath file)]
            end
        end)%list.
Proof.
  intros F L C Hi X W. apply N.lt_le_incl in L.
  rewrite (post_api_convert_accepted w file F L).
  rewrite convertHandler_trace. cbn [file_part file_path].
  rewrite C, (truthy_set id Hi). cbv zeta. rewrite X.
  fold (pdfPath file). rewrite W.
  rewrite (attempts_all_set w id _ _ Hi (uploadPath_nonempty w file)
             (pdfPath_nonempty file)).
  reflexivity.
Qed.

Lemma successful_run_witness :
  post_api_convert deleteFails (Some deck)
  = [DriveCreate "deck.pptx" (mimetype deck); SetTimeout 2000;
     DriveExport "1AbC"; WriteFile "uploads/deck.pdf" "%PDF-1.4";
     Respond (Download "uploads/deck.pdf" "deck.pdf"); DriveDelete "1AbC"].
Proof.
  refine (successful_run deleteFails deck "1AbC" "%PDF-1.4" _ _ _ _ _ _);
    solve [reflexivity | discriminate].
Defined.

(** X2. When the remote create call throws, or returns without a file id,
    the handler makes no export and no remote delete call: it attempts to
    unlink the stored upload and answers 500 with the text "Failed to
    upload to Google Drive: " followed by the reason. *)
Theorem upload_failure (w : World) (file : UploadPart) (reason : string) :
  fileFilter file = true ->
  (size file <= fileSizeLimit)%N ->
  (drive_files_create w (originalname file) (mimetype file)
     = Throws (ErrorObject reason)
   \/ (drive_files_create w (originalname file) (mimetype file)
         = Throws NotAnError /\ reason = "Unknown error")
   \/ (exists id,
         drive_files_create w (originalname file) (mimetype file)
           = Returns id
         /\ truthy id = false
         /\ reason = "Failed to upload file to Google Drive")) ->
  post_api_convert w (Some file)
  = [DriveCreate (originalname file) (mimetype file);
     Unlink (uploadPath w file);
     Respond (Json 500 "Error converting file to PDF"
                   (Some ("Failed to upload to Google Drive: " ++ reason)))].
Proof.
  intros F L H.
  rewrite (post_api_convert_accepted w file F L).
  rewrite convertHandler_trace. cbn [file_part file_path].
  rewrite (attempts_local w _ None (uploadPath_nonempty w file)).
  destruct H as [C | [[C ->] | (id & C & T & ->)]]; rewrite C;
    try rewrite T; cbn [errorText];
    destruct (fs_unlink w (uploadPath w file)); reflexivity.
Qed.

Lemma upload_failure_witness :
  post_api_convert
    {| Date_now := 5; drive_files_create := fun _ _ => Returns None;
       drive_files_export := drive_files_export quiet;
       drive_files_delete := drive_files_delete quiet;
       fs_writeFile := fs_writeFile quiet; fs_unlink := fs_unlink quiet;
       res_download_err := None |} (Some deck)
  = [DriveCreate "deck.pptx" (mimetype deck); Unlink "uploads/5-deck.pptx";
     Respond (Json 500 "Error converting file to PDF"
        (Some "Failed to upload to Google Drive: Failed to upload file to Google Drive"))].
Proof.
  refine (upload_failure _ deck "Failed to upload file to Google Drive" _ _ _);
    try solve [reflexivity | discriminate].
  right. right. exists None. repeat split.
Defined.

(** X3. When the PDF cannot be written to the scratch directory, the
    handler answers 500 with the text "Failed to convert to PDF: "
    followed by the text of the error, after a cleanup that starts with
    the remote delete of the created id and that, if it gets that far,
    also tries to unlink the PDF that was not written. *)
Theorem write_failure
    (w : World) (file : UploadPart) (id pdf : string) (e : Thrown) :
  fileFilter file = true ->
  (size file <= fileSizeLimit)%N ->
  drive_files_create w (originalname file) (mimetype file)
    = Returns (Some id) ->
  id <> "" ->
  drive_files_export w id = Returns pdf ->
  fs_writeFile w (pdfPath file) pdf = Throws e ->
  post_api_convert w (Some file)
  = ([DriveCreate (originalname file) (mimetype file); SetTimeout 2000;
      DriveExport id; WriteFile (pdfPath file) pdf]
     ++ match drive_files_delete w id with
        | Throws _ => [DriveDelete id]
        | Returns _ =>
            match fs_unlink w (uploadPath w file) with
            | Throws _ => [DriveDelete id; Unlink (uploadPath w file)]
            | Returns _ =>
                [DriveDelete id; Unlink (uploadPath w file);
                 Unlink (pdfPath file)]
            end
        end
     ++ [Respond (Json 500 "Error converting file to PDF"
                       (Some ("Failed to convert to PDF: "
                              ++ errorText e)%string))])%list.
Proof.
  intros F L C Hi X W.
  rewrite (post_api_convert_accepted w file F L).
  rewrite convertHandler_trace. cbn [file_part file_path].
  rewrite C, (truthy_set id Hi). cbv zeta. rewrite X.
  fold (pdfPath file). rewrite W.
  rewrite (attempts_all_set w id _ _ Hi (uploadPath_nonempty w file)
             (pdfPath_nonempty file)).
  reflexivity.
Qed.

Lemma write_failure_witness :
  response_of
    (post_api_convert
       {| Date_now := 5; drive_files_create := drive_files_create quiet;
          drive_files_export := drive_files_export quiet;
          drive_files_delete := drive_files_delete quiet;
          fs_writeFile := fun _ _ => Throws (ErrorObject "ENOSPC");
          fs_unlink := fun _ => Throws (ErrorObject "ENOENT");
          res_download_err := None |} (Some deck))
  = Some (Json 500 "Error converting file to PDF"
               (Some "Failed to convert to PDF: ENOSPC")).
Proof.
  rewrite (write_failure _ deck "1AbC" "%PDF-1.4" (ErrorObject "ENOSPC"));
    solve [reflexivity | discriminate].
Defined.

(** X4. A request is answered at most once, and exactly once when the
    transfer of a download does not fail.  It is left without an answer
    only when create, export and the write of the PDF succeeded and
    [res.download] gave an error to its callback, which logs it and
    cleans up; and for an accepted upload smaller than the size limit
    that is what happens then. *)
Theorem answered_at_most_once (w : World) (body : option UploadPart) :
  (responses (post_api_convert w body) <= 1)%nat
  /\ (res_download_err w = None -> responses (post_api_convert w body) = 1)
  /\ (responses (post_api_convert w body) = 0 ->
      res_download_err w <> None
      /\ exists file id pdf,
           body = Some file
           /\ drive_files_create w (originalname file) (mimetype file)
              = Returns (Some id)
           /\ drive_files_export w id = Returns pdf
           /\ fs_writeFile w (pdfPath file) pdf = Returns tt)
  /\ (forall file id pdf e,
        body = Some file ->
        fileFilter file = true ->
        (size file < fileSizeLimit)%N ->
        drive_files_create w (originalname file) (mimetype file)
          = Returns (Some id) ->
        id <> "" ->
        drive_files_export w id = Returns pdf ->
        fs_writeFile w (pdfPath file) pdf = Returns tt ->
        res_download_err w = Some e ->
        responses (post_api_convert w body) = 0).
Proof.
  assert (D : forall a b c, filter is_response (attempts w a b c) = [])
    by (intros; apply filter_response_deletions, attempts_are_deletions).
  assert (one : responses (post_api_convert w body) = 1 ->
                (responses (post_api_convert w body) <= 1)%nat
                /\ (res_download_err w = None ->
                    responses (post_api_convert w body) = 1)
                /\ (responses (post_api_convert w body) = 0 ->
                    res_download_err w <> None
                    /\ exists file id pdf,
                         body = Some file
                         /\ drive_files_create w (originalname file)
                              (mimetype file) = Returns (Some id)
                         /\ drive_files_export w id = Returns pdf
                         /\ fs_writeFile w (pdfPath file) pdf = Returns tt)).
  { intros E. rewrite E. repeat split; auto; discriminate. }
  split; [|split; [|split]].
  4: { intros file id pdf e -> F L C Hi X W E. apply N.lt_le_incl in L.
       unfold responses. rewrite (post_api_convert_accepted w file F L).
       rewrite convertHandler_trace. cbn [file_part file_path].
       rewrite C, (truthy_set id Hi). cbv zeta. rewrite X.
       fold (pdfPath file). rewrite W, E.
       cbn [app filter is_response]. now rewrite D. }
  all: revert one; unfold responses, post_api_convert, upload_single;
    destruct body as [file|]; [|intros one; now apply one];
    (destruct (fileFilter file); [|intros one; now apply one]);
    (destruct (fileSizeLimit <? size file)%N; [intros one; now apply one|]);
    rewrite convertHandler_trace; cbn [file_part file_path];
    fold (pdfPath file);
    (destruct (drive_files_create w _ _) as [id|e] eqn:C;
     [|cbn [filter is_response]; rewrite filter_app, D;
       intros one; now apply one]);
    (destruct (truthy id) eqn:T; cbv zeta;
     [|cbn [filter is_response]; rewrite filter_app, D;
       intros one; now apply one]);
    (destruct id as [id|]; [|discriminate T]);
    (destruct (drive_files_export w id) as [pdf|e] eqn:X;
     [|cbn [filter is_response]; rewrite filter_app, D;
       intros one; now apply one]);
    (destruct (fs_writeFile w (pdfPath file) pdf) as [[]|e] eqn:W;
     [|cbn [filter is_response]; rewrite filter_app, D;
       intros one; now apply one]);
    cbn [filter is_response]; rewrite filter_app, D;
    (destruct (res_download_err w) as [err|] eqn:E;
     [|intros one; now apply one]);
    intros _; cbn [filter app List.length].
  - lia.
  - discriminate.
  - intros _. split; [discriminate|]. exists file, id, pdf. auto.
Qed.

Lemma answered_at_most_once_witness :
  responses (post_api_convert downloadFails (Some deck)) = 0.
Proof.
  refine (proj2 (proj2 (proj2 (answered_at_most_once downloadFails (Some deck))))
            deck "1AbC" "%PDF-1.4" (ErrorObject "Request aborted")
            eq_refl _ _ _ _ _ _ _);
    solve [reflexivity | discriminate].
Defined.

(** X5. Remote calls are made only for the uploads the middleware
    accepts: a run that contains a remote call is the run of a request
    whose file passes the filter and is not larger than the size limit;
    the run of a file that passes the filter and is smaller than the
    limit starts with the remote create call under the original name and
    MIME type; and a run without a remote call is a single answer. *)
Theorem remote_calls_only_when_accepted
    (w : World) (body : option UploadPart) :
  (remote_calls (post_api_convert w body) <> [] ->
   exists file, body = Some file /\ fileFilter file = true
                /\ (size file <= fileSizeLimit)%N)
  /\ (forall file, body = Some file -> fileFilter file = true ->
        (size file < fileSizeLimit)%N ->
        exists rest,
          post_api_convert w body
          = DriveCreate (originalname file) (mimetype file) :: rest)
  /\ (remote_calls (post_api_convert w body) = [] ->
        exists r, post_api_convert w body = [Respond r]).
Proof.
  assert (A : forall file, fileFilter file = true ->
                (size file <= fileSizeLimit)%N ->
                exists rest,
                  post_api_convert w (Some file)
                  = DriveCreate (originalname file) (mimetype file) :: rest).
  { intros file F L. rewrite (post_api_convert_accepted w file F L).
    rewrite convertHandler_trace. cbn [file_part]. eexists; reflexivity. }
  assert (B : (forall file, body = Some file -> fileFilter file = true ->
                 (fileSizeLimit < size file)%N) ->
              exists r, post_api_convert w body = [Respond r]).
  { intros H. unfold post_api_convert, upload_single.
    destruct body as [file|]; [|eexists; reflexivity].
    destruct (fileFilter file) eqn:F; [|eexists; reflexivity].
    specialize (H file eq_refl F). apply N.ltb_lt in H. rewrite H.
    eexists; reflexivity. }
  split; [|split].
  - intros R. destruct body as [file|].
    + destruct (fileFilter file) eqn:F.
      * destruct (N.le_gt_cases (size file) fileSizeLimit) as [L|L].
        -- exists file. auto.
        -- exfalso. apply R. destruct B as [r ->]; [|reflexivity].
           intros f E _. now injection E as <-.
      * exfalso. apply R. destruct B as [r ->]; [|reflexivity].
        intros f E F'. injection E as <-. congruence.
    + exfalso. apply R. reflexivity.
  - intros file -> F L. apply A; [exact F | now apply N.lt_le_incl].
  - intros R. apply B. intros file -> F.
    destruct (N.le_gt_cases (size file) fileSizeLimit) as [L|L]; [|exact L].
    destruct (A file F L) as [rest E]. rewrite E in R. discriminate R.
Qed.

Lemma remote_calls_only_when_accepted_witness :
  exists rest,
    post_api_convert quiet (Some deck)
    = DriveCreate "deck.pptx" (mimetype deck) :: rest.
Proof.
  refine (proj1 (proj2 (remote_calls_only_when_accepted quiet (Some deck)))
            deck eq_refl _ _); reflexivity.
Defined.

(** X6. What the status of an answer tells.  An answer has status 200,
    400 or 500.  It is 400 only when no file reached the handler, and a
    request without a file is answered 400 with "No file uploaded".  It
    is 200 only when the upload was accepted, create returned an id,
    export and the write of the PDF succeeded and the transfer of the
    download did not fail. *)
Theorem status_classification
    (w : World) (body : option UploadPart) (r : Response) :
  response_of (post_api_convert w body) = Some r ->
  (statusCode r = 200 \/ statusCode r = 400 \/ statusCode r = 500)%N
  /\ (statusCode r = 400%N -> body = None)
  /\ (body = None -> r = Json 400 "No file uploaded" None)
  /\ (statusCode r = 200%N ->
      exists file id pdf,
        body = Some file
        /\ fileFilter file = true
        /\ (size file <= fileSizeLimit)%N
        /\ drive_files_create w (originalname file) (mimetype file)
           = Returns (Some id)
        /\ id <> ""
        /\ drive_files_export w id = Returns pdf
        /\ fs_writeFile w (pdfPath file) pdf = Returns tt
        /\ res_download_err w = None).
Proof.
  assert (R : forall a b c rest,
             response_of (attempts w a b c ++ rest) = response_of rest)
    by (intros; apply response_of_deletions, attempts_are_deletions).
  assert (failed : forall s m (file : UploadPart),
            (statusCode (Json 500 s m) = 200
             \/ statusCode (Json 500 s m) = 400
             \/ statusCode (Json 500 s m) = 500)%N
            /\ (statusCode (Json 500 s m) = 400%N -> Some file = None)
            /\ (Some file = None -> Json 500 s m = Json 400 "No file uploaded" None)
            /\ (statusCode (Json 500 s m) = 200%N ->
                exists f id pdf,
                  Some file = Some f
                  /\ fileFilter f = true
                  /\ (size f <= fileSizeLimit)%N
                  /\ drive_files_create w (originalname f) (mimetype f)
                     = Returns (Some id)
                  /\ id <> ""
                  /\ drive_files_export w id = Returns pdf
                  /\ fs_writeFile w (pdfPath f) pdf = Returns tt
                  /\ res_download_err w = None)).
  { intros s m file. cbn [statusCode].
    repeat split; auto; discriminate. }
  destruct body as [file|].
  2: { intros E. injection E as <-. cbn [statusCode].
       repeat split; auto; discriminate. }
  unfold post_api_convert, upload_single.
  destruct (fileFilter file) eqn:F.
  2: { intros E. injection E as <-. cbn [statusCode].
       repeat split; auto; discriminate. }
  destruct (N.ltb_spec fileSizeLimit (size file)) as [L|L].
  1: { intros E. injection E as <-. cbn [statusCode].
       repeat split; auto; discriminate. }
  rewrite convertHandler_trace. cbn [file_part file_path].
  fold (pdfPath file).
  destruct (drive_files_create w _ _) as [id|e] eqn:C; cbn [response_of].
  2: { rewrite R. intros E. injection E as <-. apply failed. }
  destruct (truthy id) eqn:T; cbv zeta; cbn [response_of].
  2: { rewrite R. intros E. injection E as <-. apply failed. }
  destruct id as [id|]; [|discriminate T].
  assert (Hi : id <> "") by (intros ->; discriminate T).
  destruct (drive_files_export w id) as [pdf|e] eqn:X; cbn [response_of].
  2: { rewrite R. intros E. injection E as <-. apply failed. }
  destruct (fs_writeFile w (pdfPath file) pdf) as [[]|e] eqn:W;
    cbn [response_of].
  2: { rewrite R. intros E. injection E as <-. apply failed. }
  destruct (res_download_err w) as [err|] eqn:D; cbn [app response_of].
  - rewrite <- (app_nil_r (attempts _ _ _ _)), R. discriminate.
  - intros E. injection E as <-. cbn [statusCode].
    repeat split; auto; try discriminate.
    intros _. exists file, id, pdf. repeat split; auto.
Qed.

Lemma status_classification_witness :
  exists file id pdf,
    Some keynote = Some file
    /\ fileFilter file = true
    /\ (size file <= fileSizeLimit)%N
    /\ drive_files_create quiet (originalname file) (mimetype file)
       = Returns (Some id)
    /\ id <> ""
    /\ drive_files_export quiet id = Returns pdf
    /\ fs_writeFile quiet (pdfPath file) pdf = Returns tt
    /\ res_download_err quiet = None.
Proof.
  refine (proj2 (proj2 (proj2
            (status_classification quiet (Some keynote)
               (Download "uploads/talk.key" "talk.key") _))) _);
    reflexivity.
Defined.

Lemma remote_deletes_none (l : list Event) :
  (forall e, In e l -> forall id, e <> DriveDelete id) ->
  remote_deletes l = [].
Proof.
  induction l as [|x l IH]; intros H; [reflexivity|].
  unfold remote_deletes in *. cbn [filter].
  destruct x; try (apply IH; intros e He; apply H; now right).
  exfalso. now apply (H (DriveDelete fileId) (or_introl eq_refl) fileId).
Qed.

Lemma attempts_one_delete (w : World) (a b c : option string) :
  (List.length (remote_deletes (attempts w a b c)) <= 1)%nat.
Proof.
  assert (Z : forall b' c', remote_deletes (attempts w None b' c') = []).
  { intros b' c'. apply remote_deletes_none. intros e He id ->.
    destruct (attempts_members w None b' c' _ He)
      as [(i & E & _) | (p & _ & E)]; discriminate E. }
  destruct a as [id|]; [|rewrite Z; cbn; lia].
  destruct (String.eqb_spec id "") as [->|Hi].
  - replace (attempts w (Some "") b c) with (attempts w None b c)
      by reflexivity.
    rewrite Z; cbn; lia.
  - rewrite (attempts_start_with_delete w id b c Hi).
    unfold remote_deletes. cbn [filter List.length].
    destruct (drive_files_delete w id).
    + fold (remote_deletes (attempts w None b c)). rewrite Z. cbn; lia.
    + cbn; lia.
Qed.

(** The run of an accepted upload: the calls of the handler, among them one
    call of [cleanupFiles] on the variables as they are at that point. *)
Lemma run_shape (w : World) (file : UploadPart) :
  fileFilter file = true ->
  (size file <= fileSizeLimit)%N ->
  exists pre a c post,
    post_api_convert w (Some file)
    = (pre ++ attempts w a (Some (uploadPath w file)) c ++ post)%list
    /\ (a = None
        \/ exists id, a = Some id
             /\ drive_files_create w (originalname file) (mimetype file)
                = Returns (Some id))
    /\ (c = None \/ c = Some (pdfPath file))
    /\ (forall e, In e pre \/ In e post ->
          (forall id, e <> DriveDelete id)
          /\ (forall p, e <> Unlink p)
          /\ (forall id, e = DriveExport id ->
                drive_files_create w (originalname file) (mimetype file)
                = Returns (Some id))).
Proof.
  intros F L.
  rewrite (post_api_convert_accepted w file F L).
  rewrite convertHandler_trace. cbn [file_part file_path].
  fold (uploadPath w file). fold (pdfPath file).
  set (n := originalname file). set (m := mimetype file).
  assert (plain : forall e (l : list Event),
            In e l ->
            forallb (fun x => match x with
                              | DriveDelete _ | Unlink _ | DriveExport _ => false
                              | _ => true
                              end) l = true ->
            (forall id, e <> DriveDelete id) /\ (forall p, e <> Unlink p)
            /\ (forall id, e = DriveExport id ->
                  drive_files_create w n m = Returns (Some id))).
  { intros e l He Hl.
    pose proof (proj1 (forallb_forall _ l) Hl e He) as K.
    destruct e; try discriminate K;
      repeat split; intros; discriminate. }
  destruct (drive_files_create w n m) as [id|err] eqn:C.
  2: { exists [DriveCreate n m], None, None. eexists.
       split; [reflexivity|]. split; [now left|]. split; [now left|].
       intros e [H|H]; eapply plain; eauto. }
  destruct (truthy id) eqn:T; cbv zeta.
  2: { exists [DriveCreate n m], None, None. eexists.
       split; [reflexivity|]. split; [now left|]. split; [now left|].
       intros e [H|H]; eapply plain; eauto. }
  destruct id as [id|]; [|discriminate T].
  assert (exporting : forall e (l : list Event),
            In e l ->
            forallb (fun x => match x with
                              | DriveDelete _ | Unlink _ => false
                              | DriveExport i => String.eqb i id
                              | _ => true
                              end) l = true ->
            (forall i, e <> DriveDelete i) /\ (forall p, e <> Unlink p)
            /\ (forall i, e = DriveExport i ->
                  Returns (Some id) = Returns (Some i) :> Outcome _)).
  { intros e l He Hl.
    pose proof (proj1 (forallb_forall _ l) Hl e He) as K.
    destruct e; try discriminate K;
      repeat split; intros; try discriminate.
    apply String.eqb_eq in K. congruence. }
  assert (Eid : String.eqb id id = true) by apply String.eqb_refl.
  destruct (drive_files_export w id) as [pdf|err] eqn:X.
  2: { exists [DriveCreate n m; SetTimeout 2000; DriveExport id],
              (Some id), None.
       eexists. split; [reflexivity|]. split; [right; eauto|].
       split; [now left|].
       intros e [H|H]; eapply exporting; eauto; cbn; now rewrite ?Eid. }
  destruct (fs_writeFile w _ _) as [[]|err] eqn:W.
  - exists ([DriveCreate n m; SetTimeout 2000; DriveExport id;
             WriteFile (pdfPath file) pdf]
            ++ match res_download_err w with
               | None =>
                   [Respond (Download (pdfPath file) (outputFileName n))]
               | Some _ => []
               end)%list,
           (Some id), (Some (pdfPath file)), [].
    split; [now rewrite app_nil_r, <- app_assoc|]. split; [right; eauto|].
    split; [now right|].
    intros e [H|[]]; eapply exporting; eauto;
      destruct (res_download_err w); cbn; now rewrite ?Eid.
  - exists [DriveCreate n m; SetTimeout 2000; DriveExport id;
            WriteFile (pdfPath file) pdf],
           (Some id), (Some (pdfPath file)).
    eexists. split; [reflexivity|]. split; [right; eauto|].
    split; [now right|].
    intros e [H|H]; eapply exporting; eauto; cbn; now rewrite ?Eid.
Qed.

(** X7. A run touches only what the request itself made: every remote
    export and every remote delete call is for the id the create call of
    this run returned, every unlink is for the stored upload or the PDF
    path of this request, and there is at most one remote delete call. *)
Theorem only_own_artifacts
    (w : World) (body : option UploadPart) (e : Event) :
  In e (post_api_convert w body) ->
  (forall id, e = DriveExport id \/ e = DriveDelete id ->
     exists file, body = Some file
       /\ drive_files_create w (originalname file) (mimetype file)
          = Returns (Some id))
  /\ (forall p, e = Unlink p ->
        exists file, body = Some file
          /\ (p = uploadPath w file \/ p = pdfPath file))
  /\ (List.length (remote_deletes (post_api_convert w body)) <= 1)%nat.
Proof.
  assert (single : forall r, In e [Respond r] ->
            (forall id, e = DriveExport id \/ e = DriveDelete id ->
               exists file, body = Some file
                 /\ drive_files_create w (originalname file) (mimetype file)
                    = Returns (Some id))
            /\ (forall p, e = Unlink p ->
                  exists file, body = Some file
                    /\ (p = uploadPath w file \/ p = pdfPath file))
            /\ (List.length (remote_deletes [Respond r]) <= 1)%nat).
  { intros r [<-|[]]. repeat split.
    - intros id [K|K]; discriminate K.
    - intros p K; discriminate K.
    - cbn; lia. }
  destruct body as [file|]; [|apply single].
  destruct (fileFilter file) eqn:F.
  2: { unfold post_api_convert, upload_single. rewrite F. apply single. }
  destruct (N.le_gt_cases (size file) fileSizeLimit) as [L|L].
  2: { unfold post_api_convert, upload_single. rewrite F.
       apply N.ltb_lt in L. rewrite L. apply single. }
  destruct (run_shape w file F L) as (pre & a & c & post & -> & Ha & Hc & P).
  intros H. split; [|split].
  - intros id K.
    exists file. split; [reflexivity|].
    apply in_app_or in H. destruct H as [H|H];
      [|apply in_app_or in H; destruct H as [H|H]].
    + destruct (P e (or_introl H)) as (P1 & _ & P3).
      destruct K as [K|K]; [now apply P3 | now apply P1 in K].
    + destruct (attempts_members w _ _ _ _ H)
        as [(i & -> & ->) | (p & _ & ->)].
      * destruct Ha as [Ha | (j & Ha & C)]; [discriminate Ha|].
        injection Ha as <-.
        destruct K as [K|K]; [discriminate K | now injection K as <-].
      * destruct K as [K|K]; discriminate K.
    + destruct (P e (or_intror H)) as (P1 & _ & P3).
      destruct K as [K|K]; [now apply P3 | now apply P1 in K].
  - intros p K. exists file. split; [reflexivity|].
    apply in_app_or in H. destruct H as [H|H];
      [|apply in_app_or in H; destruct H as [H|H]].
    + destruct (P e (or_introl H)) as (_ & P2 & _). now apply P2 in K.
    + destruct (attempts_members w _ _ _ _ H)
        as [(i & _ & ->) | (q & Hq & ->)]; [discriminate K|].
      injection K as <-. destruct Hq as [Hq|Hq].
      * left. congruence.
      * destruct Hc as [-> | ->]; [discriminate Hq | right; congruence].
    + destruct (P e (or_intror H)) as (_ & P2 & _). now apply P2 in K.
  - unfold remote_deletes. rewrite !filter_app.
    fold (remote_deletes pre). fold (remote_deletes post).
    fold (remote_deletes (attempts w a (Some (uploadPath w file)) c)).
    rewrite (remote_deletes_none pre), (remote_deletes_none post).
    + rewrite app_nil_r. cbn [app]. apply attempts_one_delete.
    + intros x Hx. now apply (P x (or_intror Hx)).
    + intros x Hx. now apply (P x (or_introl Hx)).
Qed.

Lemma only_own_artifacts_witness :
  exists file, Some deck = Some file
    /\ ("uploads/deck.pdf" = uploadPath quiet file
        \/ "uploads/deck.pdf" = pdfPath file).
Proof.
  refine (proj1 (proj2 (only_own_artifacts quiet (Some deck)
                          (Unlink "uploads/deck.pdf") _)) _ eq_refl).
  cbn. tauto.
Defined.

(* ================================================================== *)
(** ** The output file name and the scratch directory *)

(** X8. Replacing the extension twice is the same as replacing it once:
    the output file name never ends in a PowerPoint extension again. *)
Theorem outputFileName_idempotent (originalname : string) :
  outputFileName (outputFileName originalname) = outputFileName originalname
  /\ JsString.endsWith (JsString.toLowerCase (outputFileName originalname))
       ".ppt" = false
  /\ JsString.endsWith (JsString.toLowerCase (outputFileName originalname))
       ".pptx" = false.
Proof.
  assert (K : JsString.endsWith
                (JsString.toLowerCase (outputFileName originalname)) ".ppt"
              = false
              /\ JsString.endsWith
                   (JsString.toLowerCase (outputFileName originalname))
                   ".pptx" = false).
  { destruct (JsString.endsWith (JsString.toLowerCase originalname) ".ppt")
      eqn:E1.
    2: destruct (JsString.endsWith (JsString.toLowerCase originalname)
                   ".pptx") eqn:E2.
    3: { unfold outputFileName.
         rewrite (outputFileName_keeps originalname E1 E2). now split. }
    all: assert (E : exists base e, originalname = (base ++ e)%string
                       /\ pptExtensionAnyCase e)
           by (apply endsWith_lowered; auto);
         destruct E as (base & e & -> & P);
         unfold outputFileName; rewrite (replace_swaps base e P);
         rewrite toLowerCase_append;
         split; apply endsWith_append_false; reflexivity. }
  split; [|exact K].
  unfold outputFileName at 1. apply outputFileName_keeps; apply K.
Qed.

(** X9. The PDF path of a request is made from the file name alone, in the
    directory that also holds the stored uploads.  So two uploads whose
    names differ only in their PowerPoint extension are written to the
    same PDF path, and an upload without a PowerPoint extension whose name
    is that of another request's stored upload (timestamp, dash, name) is
    written over that stored upload. *)
Theorem pdfPath_collisions (w : World) (f g : UploadPart) :
  ((exists base e1 e2,
      originalname f = base ++ e1 /\ originalname g = base ++ e2
      /\ pptExtensionAnyCase e1 /\ pptExtensionAnyCase e2) ->
   pdfPath f = pdfPath g)
  /\ (originalname g = storage_filename w f ->
      JsString.endsWith (JsString.toLowerCase (originalname g)) ".ppt"
        = false ->
      JsString.endsWith (JsString.toLowerCase (originalname g)) ".pptx"
        = false ->
      pdfPath g = uploadPath w f).
Proof.
  split.
  - intros (base & e1 & e2 & E1 & E2 & P1 & P2).
    rewrite !pdfPath_unfold. unfold outputFileName.
    now rewrite E1, E2, !replace_swaps.
  - intros E H1 H2. rewrite pdfPath_unfold, uploadPath_unfold.
    unfold outputFileName. rewrite (outputFileName_keeps _ H1 H2).
    now rewrite E.
Qed.

Lemma pdfPath_collisions_witness :
  pdfPath deck = pdfPath deckOld
  /\ pdfPath {| originalname := "1700000000000-talk.key";
                mimetype := "application/vnd.ms-powerpoint"; size := 1 |}
     = uploadPath quiet keynote.
Proof.
  split.
  - refine (proj1 (pdfPath_collisions quiet deck deckOld) _).
    exists "deck", ".pptx", ".ppt".
    repeat split; solve [reflexivity | left; reflexivity | right; reflexivity].
  - refine (proj2 (pdfPath_collisions quiet keynote _) _ _ _); reflexivity.
Defined.

(* ================================================================== *)
(** ** Start-up *)

(** X10. The server goes on past the check of its environment exactly when
    each of the four credential variables is set to a non-empty string; a
    variable set to the empty string counts as missing, and then the
    process exits with code 1. *)
Theorem startup_needs_all_credentials (env : Startup.Env) :
  (Startup.validate env = None <->
   forall v, In v Startup.requiredEnvVars ->
     exists s, env v = Some s /\ s <> "")
  /\ (Startup.validate env = None \/ Startup.validate env = Some 1%N)
  /\ (forall v, In v Startup.requiredEnvVars -> env v = Some "" ->
        Startup.validate env = Some 1%N).
Proof.
  assert (T : forall o, truthy o = true <-> exists s, o = Some s /\ s <> "").
  { intros [s|]; cbn [truthy].
    - rewrite negb_true_iff. split.
      + intros H. exists s. split; [reflexivity|]. now apply String.eqb_neq.
      + intros (s' & E & H). injection E as <-. now apply String.eqb_neq.
    - split; [discriminate|]. intros (s & E & _). discriminate E. }
  assert (V : Startup.validate env = None <-> Startup.missingEnvVars env = []).
  { unfold Startup.validate.
    destruct (Startup.missingEnvVars env); cbn; split; congruence. }
  assert (A : Startup.validate env = None <->
              forall v, In v Startup.requiredEnvVars ->
                exists s, env v = Some s /\ s <> "").
  { rewrite V. unfold Startup.missingEnvVars. split.
    - intros H v Hv. apply T.
      destruct (truthy (env v)) eqn:E; [reflexivity|].
      assert (K : In v (filter (fun varName => negb (truthy (env varName)))
                          Startup.requiredEnvVars))
        by (apply filter_In; split; [exact Hv | now rewrite E]).
      rewrite H in K. destruct K.
    - intros H.
      destruct (filter _ Startup.requiredEnvVars) as [|v l] eqn:E;
        [reflexivity|].
      assert (K : In v (filter (fun varName => negb (truthy (env varName)))
                          Startup.requiredEnvVars))
        by (rewrite E; now left).
      apply filter_In in K. destruct K as [Hv K].
      pose proof (proj2 (T (env v)) (H v Hv)) as Tv.
      rewrite Tv in K. discriminate K. }
  split; [exact A|]. split.
  - unfold Startup.validate. destruct (_ <? _)%nat; auto.
  - intros v Hv E.
    assert (N : Startup.validate env <> None).
    { intros S. destruct (proj1 A S v Hv) as (s & Es & Hs).
      congruence. }
    revert N. unfold Startup.validate. destruct (_ <? _)%nat; congruence.
Qed.

Lemma startup_needs_all_credentials_witness :
  Startup.validate
    (fun v => if String.eqb v "GOOGLE_REDIRECT_URI" then Some "" else Some "x")
  = Some 1%N.
Proof.
  refine (proj2 (proj2 (startup_needs_all_credentials _))
            "GOOGLE_REDIRECT_URI" _ _); [cbn; tauto | reflexivity].
Defined.

(* ================================================================== *)
(** ** The client checks and the server checks, together *)

Lemma endsWith_lowered_of_lower (s ext : string) :
  JsString.toLowerCase ext = ext ->
  JsString.endsWith s ext = true ->
  JsString.endsWith (JsString.toLowerCase s) ext = true.
Proof.
  intros L H. apply endsWith_inv in H. destruct H as [b ->].
  rewrite toLowerCase_append, L. apply endsWith_append.
Qed.

(** The type check of the upload service implies that of the conversion
    service. *)
Lemma validateFileType_isValid (file : Client.File) :
  Client.validateFileType file = true ->
  Client.isValidPowerPointFile file = true.
Proof.
  unfold Client.validateFileType, Client.isValidPowerPointFile,
    Client.validFileTypes.
  cbn [existsb]. intros H.
  apply orb_true_iff in H. destruct H as [H|H];
    [apply orb_true_iff in H; destruct H as [H|H]|].
  - now rewrite H.
  - rewrite (endsWith_lowered_of_lower _ ".ppt" eq_refl H).
    now rewrite orb_true_r.
  - rewrite (endsWith_lowered_of_lower _ ".pptx" eq_refl H).
    now rewrite !orb_true_r.
Qed.

Lemma fileFilter_part_of (file : Client.File) :
  fileFilter (ConversionService.part_of file) = Client.validateFileType file.
Proof.
  rewrite <- validateFileType_is_fileFilter. now destruct file.
Qed.

Lemma step_keeps_selection_valid (p : Form.Page) (a : Form.Action) :
  (forall f, Client.selectedFile (Form.component p) = Some f ->
     Client.validateFileType f = true /\ Client.validateFileSize f = true) ->
  forall f, Client.selectedFile (Form.component (Form.step p a)) = Some f ->
    Client.validateFileType f = true /\ Client.validateFileSize f = true.
Proof.
  intros Inv f. destruct a as [files| |s|]; cbn [Form.step].
  - cbn [Form.component]. unfold Client.onFileSelected.
    destruct files as [|file rest]; [apply Inv|].
    destruct (Client.validateFileType file) eqn:T; cbn [negb];
      [|discriminate].
    destruct (Client.validateFileSize file) eqn:S; cbn [negb];
      [|discriminate].
    cbn [Client.selectedFile]. intros E. injection E as <-. now split.
  - destruct (Form.buttonDisabled (Form.component p)); [apply Inv|].
    cbn [Form.component]. unfold Client.convertToPdf.
    destruct (Client.selectedFile (Form.component p)) eqn:E;
      cbn [Client.selectedFile]; [|discriminate].
    intros E'. apply Inv. congruence.
  - cbn [Form.component]. destruct s; cbn [Client.deliver].
    + destruct (Client.progressInterval (Form.component p)); [|apply Inv].
      unfold Client.onTick.
      destruct (Client.uploadProgress (Form.component p) <? 90)%N; apply Inv.
    + destruct (Client.subscribed (Form.component p)); apply Inv.
    + destruct (Client.subscribed (Form.component p)); apply Inv.
  - destruct (Form.delayPending p); apply Inv.
Qed.

(** X11. Whatever the user and the browser do with the converter form, the
    selected file has passed the type check and the size check of the
    upload service.  Such a file also passes the two checks the
    conversion service makes before it posts, and the server's upload
    middleware accepts it: the form never sends a file the server
    refuses for its type or size. *)
Theorem form_selection_is_accepted
    (actions : list Form.Action) (file : Client.File) :
  Client.selectedFile (Form.component (Form.after actions)) = Some file ->
  Client.validateFileType file = true
  /\ Client.validateFileSize file = true
  /\ ConversionService.precheck file = None
  /\ forall w : World,
       upload_single w (Some (ConversionService.part_of file))
       = Next (Some {| file_part := ConversionService.part_of file;
                       file_path :=
                         uploadPath w (ConversionService.part_of file) |}).
Proof.
  intros H.
  assert (V : Client.validateFileType file = true
              /\ Client.validateFileSize file = true).
  { revert file H. unfold Form.after.
    assert (G : forall p,
               (forall f, Client.selectedFile (Form.component p) = Some f ->
                  Client.validateFileType f = true
                  /\ Client.validateFileSize f = true) ->
               forall f,
                 Client.selectedFile
                   (Form.component (fold_left Form.step actions p)) = Some f ->
                 Client.validateFileType f = true
                 /\ Client.validateFileSize f = true).
    { induction actions as [|a actions IH]; intros p Inv; [exact Inv|].
      cbn [fold_left]. apply IH. now apply step_keeps_selection_valid. }
    apply G. intros f E. discriminate E. }
  destruct V as [T S]. split; [exact T|]. split; [exact S|].
  unfold Client.validateFileSize, Client.maxFileSize in S.
  apply N.leb_le in S.
  split.
  - unfold ConversionService.precheck.
    rewrite (validateFileType_isValid file T). cbn [negb].
    destruct (N.ltb_spec (50 * 1024 * 1024) (Client.size file)); [lia|].
    reflexivity.
  - intros w. unfold upload_single.
    rewrite fileFilter_part_of, T. cbn [ConversionService.part_of size].
    unfold fileSizeLimit.
    destruct (N.ltb_spec (50 * 1024 * 1024) (Client.size file)); [lia|].
    reflexivity.
Qed.

Lemma form_selection_is_accepted_witness :
  ConversionService.precheck
    {| Client.name := "deck.pptx"; Client.type := ""; Client.size := 1024 |}
  = None.
Proof.
  refine (proj1 (proj2 (proj2
           (form_selection_is_accepted
              [Form.Select [{| Client.name := "notes.txt"; Client.type := "";
                               Client.size := 3 |}];
               Form.Select [{| Client.name := "deck.pptx"; Client.type := "";
                               Client.size := 1024 |}];
               Form.Click; Form.Signalled Client.Tick]
              _ _)))).
  reflexivity.
Defined.

(** X12. A file the conversion service posts is at most 50 MiB.  When it
    is smaller than the server's size limit the server does not refuse
    it for its size: the upload middleware accepts it, or the filter
    refuses it, and the filter refuses it only when neither its MIME type
    nor a lower-case extension admits it, that is, when the service let
    it through for an extension written with capitals. *)
Theorem posted_file_at_server (w : World) (file : Client.File) :
  ConversionService.precheck file = None ->
  (Client.size file <= fileSizeLimit)%N
  /\ ((Client.size file < fileSizeLimit)%N ->
      upload_single w (Some (ConversionService.part_of file))
      = Next (Some {| file_part := ConversionService.part_of file;
                      file_path :=
                        uploadPath w (ConversionService.part_of file) |})
      \/ (upload_single w (Some (ConversionService.part_of file))
          = NextError (ErrorObject "Only PowerPoint files are allowed!")
          /\ Client.validateFileType file = false
          /\ (JsString.endsWith (JsString.toLowerCase (Client.name file))
                ".ppt" = true
              \/ JsString.endsWith (JsString.toLowerCase (Client.name file))
                   ".pptx" = true))).
Proof.
  unfold ConversionService.precheck.
  destruct (Client.isValidPowerPointFile file) eqn:V; cbn [negb];
    [|discriminate].
  destruct (N.ltb_spec (50 * 1024 * 1024) (Client.size file)) as [L|L];
    [discriminate|].
  intros _. split; [exact L|]. intros S.
  unfold upload_single. rewrite fileFilter_part_of.
  cbn [ConversionService.part_of size].
  destruct (Client.validateFileType file) eqn:T.
  - left. apply N.lt_le_incl, N.ltb_ge in S. now rewrite S.
  - right. split; [reflexivity|]. split; [reflexivity|].
    revert V T. unfold Client.isValidPowerPointFile, Client.validateFileType,
      Client.validFileTypes. cbn [existsb].
    destruct (JsString.includes _ _); cbn [orb]; [discriminate 2|].
    rewrite orb_false_r. intros V _. now apply orb_true_iff in V.
Qed.

Lemma posted_file_at_server_witness :
  upload_single quiet
    (Some (ConversionService.part_of
             {| Client.name := "Slides.PPT"; Client.type := "";
                Client.size := 2048 |}))
  <> Next None.
Proof.
  destruct (posted_file_at_server quiet
              {| Client.name := "Slides.PPT"; Client.type := "";
                 Client.size := 2048 |} eq_refl) as [_ H].
  destruct H as [E | [E _]]; [reflexivity | |]; rewrite E; discriminate.
Defined.

(* ================================================================== *)
(** ** The converter form: status label and download *)

Section FormFacts.

Import Client.

Lemma status_after_ticks (c : Component) (k : nat) :
  progressInterval c = true ->
  uploadProgress c = 0%N ->
  conversionStatus c = "Uploading file to server..." ->
  conversionStatus (run c (repeat Tick k)) = Form.label k.
Proof.
  intros T P S. induction k as [|k IH]; [exact S|].
  cbn [repeat]. rewrite repeat_cons, run_app.
  destruct (run_ticks k c 0%N T) as (A & B & _); [now rewrite P | lia |].
  cbn [run fold_left deliver]. rewrite B. unfold onTick. rewrite A.
  destruct (N.ltb_spec (10 * N.min (0 + N.of_nat k) 9) 90);
    cbn [conversionStatus]; rewrite ?IH; unfold Form.label;
    repeat match goal with
    | |- context [(?a <? ?b)%N] => destruct (N.ltb_spec a b)
    | |- context [(?a <=? ?b)%N] => destruct (N.leb_spec a b)
    | |- context [(?a <? ?b)%nat] => destruct (Nat.ltb_spec a b)
    end; cbn [andb]; try reflexivity; lia.
Qed.

(** X13. The status label of a request depends on the number of elapsed
    ticks only: it is the upload message for the first two ticks, the
    processing message from the third to the fifth, and the conversion
    message from the sixth on, however long the request takes. *)
Theorem status_label_by_ticks (c : Component) (file : File) (k : nat) :
  selectedFile c = Some file ->
  conversionStatus (run (convertToPdf c) (repeat Tick k)) = Form.label k
  /\ (conversionStatus (run (convertToPdf c) (repeat Tick k))
      = "Uploading file to server..." <-> (k < 3)%nat)
  /\ (conversionStatus (run (convertToPdf c) (repeat Tick k))
      = "Converting to PDF..." <-> (6 <= k)%nat).
Proof.
  intros Sel.
  assert (E : conversionStatus (run (convertToPdf c) (repeat Tick k))
              = Form.label k).
  { apply status_after_ticks; unfold convertToPdf; now rewrite Sel. }
  rewrite E. split; [reflexivity|]. unfold Form.label.
  destruct (Nat.ltb_spec k 3); [|destruct (Nat.ltb_spec k 6)];
    repeat split; intros; try reflexivity; try discriminate; lia.
Qed.

Lemma status_label_by_ticks_witness :
  conversionStatus
    (run (convertToPdf
            (onFileSelected fresh
               [{| name := "deck.pptx"; type := ""; size := 1024 |}]))
         (repeat Tick 4))
  = "Processing PowerPoint file...".
Proof.
  refine (proj1 (status_label_by_ticks _
                   {| name := "deck.pptx"; type := ""; size := 1024 |} 4 _)).
  reflexivity.
Defined.

(** X14. The download that follows a response is named after the file that
    is selected when the delay of half a second ends, not after the file
    that was sent: if the user selects another valid file in between, the
    PDF is saved under that file's name, and if the user selects a file
    that is refused, the selection is null and reading its name throws,
    so nothing is downloaded. *)
Theorem download_uses_current_selection
    (c : Component) (sent : File) (other : File) (rest : list File) :
  selectedFile c = Some sent ->
  let arrived := deliver (convertToPdf c) ResponseArrived in
  snd (Form.afterDelay arrived) = Some (downloadName (name sent))
  /\ (validateFileType other = true -> validateFileSize other = true ->
      snd (Form.afterDelay (onFileSelected arrived (other :: rest)))
      = Some (downloadName (name other)))
  /\ (validateFileType other = false \/ validateFileSize other = false ->
      snd (Form.afterDelay (onFileSelected arrived (other :: rest))) = None).
Proof.
  intros Sel arrived. subst arrived. unfold convertToPdf. rewrite Sel.
  cbn [deliver subscribed onNext Form.afterDelay snd selectedFile].
  split; [reflexivity|]. split.
  - intros T S. unfold onFileSelected. now rewrite T, S.
  - intros H. unfold onFileSelected.
    destruct (validateFileType other); cbn [negb]; [|reflexivity].
    destruct H as [H|H]; [discriminate H|]. now rewrite H.
Qed.

Lemma download_uses_current_selection_witness :
  snd (Form.afterDelay
         (onFileSelected
            (deliver
               (convertToPdf
                  (onFileSelected fresh
                     [{| name := "deck.pptx"; type := ""; size := 1024 |}]))
               ResponseArrived)
            [{| name := "notes.txt"; type := "text/plain"; size := 10 |}]))
  = None.
Proof.
  refine (proj2 (proj2
            (download_uses_current_selection
               (onFileSelected fresh
                  [{| name := "deck.pptx"; type := ""; size := 1024 |}])
               {| name := "deck.pptx"; type := ""; size := 1024 |}
               {| name := "notes.txt"; type := "text/plain"; size := 10 |}
               [] _)) _).
  - reflexivity.
  - left; reflexivity.
Defined.

End FormFacts.

(* ================================================================== *)
(** ** The conversion service and the app component *)

(** X15. What the subscriber of the conversion service receives.  A file
    that fails a check gets the message of that check, and no request is
    made, so the reply plays no part.  A PDF is emitted exactly when the
    file passed both checks and the response has a content type that
    contains [application/pdf]; any other response is the error "Invalid
    response type from server".  When the request fails with a body that
    is a blob, the message is the fixed "An error occurred during
    conversion", whatever text the blob holds. *)
Theorem conversion_service_delivery
    (file : Client.File) (reply : ConversionService.HttpReply) :
  (forall message, ConversionService.precheck file = Some message ->
     ConversionService.convertToPdf file reply
     = ConversionService.Errors message)
  /\ (forall pdfBlob,
        ConversionService.convertToPdf file reply
        = ConversionService.Emits pdfBlob <->
        ConversionService.precheck file = None
        /\ exists ct,
             reply = ConversionService.Responds (Some ct) pdfBlob
             /\ ConversionService.includes ct "application/pdf" = true)
  /\ (ConversionService.precheck file = None ->
      forall ct body,
        reply = ConversionService.Responds ct body ->
        (forall t, ct = Some t ->
           ConversionService.includes t "application/pdf" = false) ->
        ConversionService.convertToPdf file reply
        = ConversionService.Errors "Invalid response type from server")
  /\ (ConversionService.precheck file = None ->
      forall text message,
        reply = ConversionService.Fails
                  {| ConversionService.error_body :=
                       ConversionService.BlobBody text;
                     ConversionService.error_message := message |} ->
        ConversionService.convertToPdf file reply
        = ConversionService.Errors "An error occurred during conversion").
Proof.
  unfold ConversionService.convertToPdf.
  split; [|split; [|split]].
  - intros message ->. reflexivity.
  - intros pdfBlob. destruct (ConversionService.precheck file) as [m|].
    { split; [discriminate | intros [E _]; discriminate E]. }
    destruct reply as [[ct|] body|e].
    + destruct (ConversionService.includes ct "application/pdf") eqn:I.
      * assert (T : truthy (Some ct) = true).
        { destruct ct; [discriminate I | reflexivity]. }
        rewrite T. cbn [andb]. split.
        -- intros E. injection E as <-. split; [reflexivity|].
           exists ct. now split.
        -- intros (_ & t & E & _). now injection E as _ <-.
      * rewrite andb_false_r. split; [discriminate|].
        intros (_ & t & E & It). injection E as <- _. congruence.
    + split; [discriminate|]. intros (_ & t & E & _). discriminate E.
    + split; [discriminate|]. intros (_ & t & E & _). discriminate E.
  - intros -> ct body -> H. destruct ct as [t|]; [|reflexivity].
    now rewrite (H t eq_refl), andb_false_r.
  - intros -> text message ->. reflexivity.
Qed.

Lemma conversion_service_delivery_witness :
  ConversionService.convertToPdf
    {| Client.name := "deck.pptx"; Client.type := ""; Client.size := 1024 |}
    (ConversionService.Fails
       {| ConversionService.error_body :=
            ConversionService.BlobBody "Failed to convert to PDF: quota";
          ConversionService.error_message := "Http failure response" |})
  = ConversionService.Errors "An error occurred during conversion".
Proof.
  refine (proj2 (proj2 (proj2
            (conversion_service_delivery
               {| Client.name := "deck.pptx"; Client.type := "";
                  Client.size := 1024 |}
               (ConversionService.Fails
                  {| ConversionService.error_body :=
                       ConversionService.BlobBody
                         "Failed to convert to PDF: quota";
                     ConversionService.error_message :=
                       "Http failure response" |}))))
            eq_refl "Failed to convert to PDF: quota"
            "Http failure response" eq_refl).
Defined.

(** X16. For an error whose body is an object, [handleError] takes the
    first non-empty of its [details], its [error] and the message of the
    error itself; for an [ErrorEvent] it takes the event's message. *)
Theorem handleError_precedence
    (details err : option string) (message : string) :
  let e := {| ConversionService.error_body :=
                ConversionService.ObjectBody details err;
              ConversionService.error_message := message |} in
  (forall d, details = Some d -> d <> "" ->
     ConversionService.handleError e = d)
  /\ (truthy details = false -> forall x, err = Some x -> x <> "" ->
      ConversionService.handleError e = x)
  /\ (truthy details = false -> truthy err = false ->
      ConversionService.handleError e = message)
  /\ (forall m,
        ConversionService.handleError
          {| ConversionService.error_body :=
               ConversionService.ErrorEventBody m;
             ConversionService.error_message := message |} = m).
Proof.
  cbv zeta. unfold ConversionService.handleError, ConversionService.or_else.
  cbn [ConversionService.error_body ConversionService.error_message].
  repeat split.
  - intros d -> Hd. now rewrite (truthy_set d Hd), (truthy_set d Hd).
  - intros Td x -> Hx. now rewrite Td, (truthy_set x Hx).
  - intros Td Te. now rewrite Td, Te.
Qed.

Lemma handleError_precedence_witness :
  ConversionService.handleError
    {| ConversionService.error_body :=
         ConversionService.ObjectBody (Some "") (Some "Error converting file to PDF");
       ConversionService.error_message := "Http failure response" |}
  = "Error converting file to PDF".
Proof.
  refine (proj1 (proj2 (handleError_precedence (Some "")
                          (Some "Error converting file to PDF")
                          "Http failure response")) eq_refl _ eq_refl _).
  discriminate.
Defined.

(** X17. The app component selects any file, without a check.  A file the
    conversion service refuses is reported with the service's message, it
    stays selected and nothing is downloaded, whatever the server would
    answer.  When a PDF arrives it is downloaded under the name of the
    file with the extension replaced, the selection is cleared, and
    converting again only reports that no file is selected. *)
Theorem app_component_flow
    (c : AppComponent.App) (file : Client.File) (rest : list Client.File)
    (reply : ConversionService.HttpReply) :
  let selected := AppComponent.onFileSelected c (file :: rest) in
  AppComponent.selectedFile selected = Some file
  /\ (forall message,
        ConversionService.precheck file = Some message ->
        AppComponent.convertFile selected reply
        = ({| AppComponent.selectedFile := Some file;
              AppComponent.isConverting := false;
              AppComponent.error := Some message |}, None))
  /\ (forall pdfBlob,
        ConversionService.convertToPdf file reply
        = ConversionService.Emits pdfBlob ->
        AppComponent.convertFile selected reply
        = ({| AppComponent.selectedFile := None;
              AppComponent.isConverting := false;
              AppComponent.error := None |},
           Some (Client.downloadName (Client.name file)))
        /\ forall again,
             AppComponent.convertFile
               (fst (AppComponent.convertFile selected reply)) again
             = ({| AppComponent.selectedFile := None;
                   AppComponent.isConverting := false;
                   AppComponent.error := Some "Please select a file first" |},
                None)).
Proof.
  cbv zeta. unfold AppComponent.convertFile.
  cbn [AppComponent.onFileSelected AppComponent.selectedFile].
  split; [reflexivity|]. split.
  - intros message P.
    unfold ConversionService.convertToPdf. rewrite P. reflexivity.
  - intros pdfBlob E. rewrite E.
    cbn [fst AppComponent.selectedFile AppComponent.isConverting].
    split; [reflexivity|]. intros again. reflexivity.
Qed.

Lemma app_component_flow_witness :
  AppComponent.convertFile
    (AppComponent.onFileSelected AppComponent.start
       [{| Client.name := "notes.txt"; Client.type := "text/plain";
           Client.size := 10 |}])
    (ConversionService.Responds (Some "application/pdf") "%PDF-1.4")
  = ({| AppComponent.selectedFile :=
          Some {| Client.name := "notes.txt"; Client.type := "text/plain";
                  Client.size := 10 |};
        AppComponent.isConverting := false;
        AppComponent.error :=
          Some "Invalid file type. Please upload a PowerPoint file (.ppt or .pptx)" |},
     None).
Proof.
  refine (proj1 (proj2
            (app_component_flow AppComponent.start
               {| Client.name := "notes.txt"; Client.type := "text/plain";
                  Client.size := 10 |} []
               (ConversionService.Responds (Some "application/pdf")
                  "%PDF-1.4"))) _ eq_refl).
Defined.

(* ================================================================== *)
(** ** The fallback PDF *)

Section FallbackFacts.

Import Fallback.

Lemma append_associative (a b c : string) :
  ((a ++ b) ++ c = a ++ (b ++ c))%string.
Proof. induction a as [|x a IH]; cbn; [reflexivity | now rewrite IH]. Qed.

Lemma substring_past (b : string) :
  forall n x, substring (String.length b) n (b ++ x) = substring 0 n x.
Proof. induction b as [|c b IH]; intros n x; cbn; [reflexivity | apply IH]. Qed.

Lemma encode_append (a b : string) :
  encode (a ++ b) = (encode a ++ encode b)%list.
Proof.
  induction a as [|c a IH]; cbn [append encode]; [reflexivity|].
  now rewrite IH, app_assoc.
Qed.

Lemma isAscii_append (a b : string) :
  isAscii (a ++ b) = isAscii a && isAscii b.
Proof.
  induction a as [|c a IH]; cbn [append isAscii]; [reflexivity|].
  now rewrite IH, andb_assoc.
Qed.

Lemma encode_length_ascii (s : string) :
  isAscii s = true -> List.length (encode s) = String.length s.
Proof.
  induction s as [|c s IH]; cbn [isAscii encode String.length];
    [reflexivity|].
  intros H. apply andb_prop in H. destruct H as [Hc Hs].
  rewrite Hc. cbn [app List.length]. now rewrite IH.
Qed.

Lemma isAscii_decimal (n : nat) : isAscii (decimal n) = true.
Proof.
  unfold decimal, Number_toString.
  induction (N.to_uint (N.of_nat n)) as [|d IH|d IH|d IH|d IH|d IH|d IH
                                         |d IH|d IH|d IH|d IH];
    cbn [NilEmpty.string_of_uint isAscii]; try reflexivity; exact IH.
Qed.

Lemma isAscii_replaceLineFeeds (r s : string) :
  isAscii r = true -> isAscii s = true ->
  isAscii (replaceLineFeeds r s) = true.
Proof.
  intros Hr. induction s as [|c s IH]; cbn [replaceLineFeeds isAscii];
    [reflexivity|].
  intros H. apply andb_prop in H. destruct H as [Hc Hs].
  destruct (Ascii.eqb c "010").
  - rewrite isAscii_append, Hr. now apply IH.
  - cbn [isAscii]. rewrite Hc. now apply IH.
Qed.

Lemma skipn_past {A} (l1 l2 : list A) :
  skipn (List.length l1) (l1 ++ l2) = l2.
Proof. induction l1 as [|x l1 IH]; cbn; [reflexivity | exact IH]. Qed.

(** Everything before the cross-reference table. *)
Lemma pdfString_split (fileName date : string) :
  exists body,
    pdfString fileName date
    = (body ++ xref fileName date ++ trailer fileName date)%string
    /\ String.length body = xrefPosition fileName date
    /\ (isAscii fileName = true -> isAscii date = true ->
        isAscii body = true).
Proof.
  exists (pdfHeader ++ obj1 ++ obj2 ++ obj3 ++ obj4
          ++ contentStream fileName date ++ obj6)%string.
  split; [|split].
  - unfold pdfString. now rewrite !append_associative.
  - unfold xrefPosition. rewrite !length_append. lia.
  - intros Hf Hd.
    assert (C : isAscii (content fileName date) = true).
    { unfold content. rewrite !isAscii_append, Hf, Hd. reflexivity. }
    rewrite !isAscii_append. unfold contentStream.
    rewrite !isAscii_append, isAscii_decimal.
    rewrite (isAscii_replaceLineFeeds (") Tj" ++ LF ++ "T* (") _ eq_refl C).
    reflexivity.
Qed.

(** X18. The fallback PDF records in [startxref] the position at which its
    cross-reference table begins: the text of the file has [xref] at that
    position and ends with [startxref], the position and [%%EOF].  When
    the file name and the date are ASCII the same holds for the bytes the
    function returns. *)
Theorem fallback_pdf_startxref (fileName date : string) :
  substring (xrefPosition fileName date) 4 (pdfString fileName date) = "xref"
  /\ (exists before,
        pdfString fileName date
        = before ++ "startxref" ++ LF ++ decimal (xrefPosition fileName date)
          ++ LF ++ "%%EOF")
  /\ (100 <= xrefPosition fileName date)%nat
  /\ (isAscii fileName = true -> isAscii date = true ->
      firstn 4 (skipn (xrefPosition fileName date)
                  (createSimplePdf fileName date))
      = encode "xref").
Proof.
  destruct (pdfString_split fileName date) as (body & E & L & A).
  split; [|split; [|split]].
  - rewrite E, <- L, substring_past. reflexivity.
  - exists (body ++ xref fileName date ++ "trailer" ++ LF
            ++ "<< /Size 7 /Root 1 0 R >>" ++ LF)%string.
    rewrite E. unfold trailer. now rewrite !append_associative.
  - unfold xrefPosition. cbn [pdfHeader obj1 obj2 obj3 String.length append LF].
    lia.
  - intros Hf Hd. unfold createSimplePdf.
    rewrite E, encode_append, <- L, <- (encode_length_ascii body (A Hf Hd)).
    rewrite skipn_past. reflexivity.
Qed.

Lemma fallback_pdf_startxref_witness :
  firstn 4 (skipn (xrefPosition "deck.pptx" "1/2/2025, 10:00:00 AM")
              (createSimplePdf "deck.pptx" "1/2/2025, 10:00:00 AM"))
  = [120; 114; 101; 102]%N.
Proof.
  refine (proj2 (proj2 (proj2
            (fallback_pdf_startxref "deck.pptx" "1/2/2025, 10:00:00 AM")))
            eq_refl eq_refl).
Defined.

End FallbackFacts.

(* ================================================================== *)
(** ** The page as a whole *)

Section PageFacts.

Import Client.

Lemma step_keeps_invariant (p : Form.Page) (a : Form.Action) :
  Form.invariant p -> Form.invariant (Form.step p a).
Proof.
  destruct p as [[isL eM sM sel cS uP pI sub] d].
  unfold Form.invariant. cbn [Form.component Form.delayPending
    progressInterval subscribed isLoading uploadProgress].
  intros (I1 & I2 & I3 & I4 & I5).
  assert (same : pI = sub
            /\ (sub = true -> isL = true /\ d = false
                /\ exists j, (j <= 9)%N /\ uP = (10 * j)%N)
            /\ (d = true -> isL = true /\ sub = false /\ uP = 100%N)
            /\ (isL = false -> sub = false /\ d = false)
            /\ (exists j, (j <= 10)%N /\ uP = (10 * j)%N))
    by exact (conj I1 (conj I2 (conj I3 (conj I4 I5)))).
  destruct a as [files| |s|]; cbn [Form.step Form.component].
  - unfold onFileSelected.
    destruct files as [|file rest];
      [|destruct (validateFileType file); cbn [negb];
        [destruct (validateFileSize file); cbn [negb]|]];
      exact same.
  - unfold Form.buttonDisabled. cbn [selectedFile isLoading].
    destruct sel as [file|]; [|exact same].
    destruct isL; [exact same|].
    destruct (I4 eq_refl) as [-> ->].
    unfold convertToPdf.
    cbn [selectedFile Form.component Form.delayPending progressInterval
         subscribed isLoading uploadProgress].
    repeat split; try discriminate;
      exists 0%N; (split; [lia | reflexivity]).
  - destruct s as [| |m]; cbn [deliver progressInterval subscribed].
    + subst pI. destruct sub; [|exact same].
      destruct (I2 eq_refl) as (-> & -> & j & Hj & ->).
      unfold onTick. cbn [uploadProgress].
      destruct (N.ltb_spec (10 * j) 90);
        cbn [Form.component Form.delayPending progressInterval subscribed
             isLoading uploadProgress].
      * repeat split; try discriminate;
          exists (j + 1)%N; (split; lia).
      * exact same.
    + destruct sub; cbn [orb]; [|exact same].
      destruct (I2 eq_refl) as (-> & -> & _).
      unfold onNext.
      cbn [Form.component Form.delayPending progressInterval subscribed
           isLoading uploadProgress].
      repeat split; try discriminate.
      exists 10%N. split; [lia | reflexivity].
    + destruct sub; [|exact same].
      destruct (I2 eq_refl) as (-> & -> & _).
      unfold onError.
      cbn [Form.component Form.delayPending progressInterval subscribed
           isLoading uploadProgress].
      repeat split; try discriminate.
      exists 0%N. split; [lia | reflexivity].
  - destruct d; [|exact same].
    destruct (I3 eq_refl) as (-> & -> & ->).
    cbn [Form.afterDelay fst Form.component Form.delayPending
         progressInterval subscribed isLoading uploadProgress].
    repeat split; try discriminate; try exact I1.
    exists 10%N. split; [lia | reflexivity].
Qed.

(** X19. At every moment of the page: the interval timer is set exactly
    while a response is awaited; while one is awaited the page is loading
    and the progress is at most 90; the pending download delay goes with
    a progress of 100; the progress is always a multiple of ten that is
    at most 100; and the button is enabled only when no response is
    awaited and no delay is pending, so a second request cannot start
    before the first has ended. *)
Theorem page_invariant (actions : list Form.Action) :
  let p := Form.after actions in
  let c := Form.component p in
  progressInterval c = subscribed c
  /\ (subscribed c = true ->
      isLoading c = true /\ Form.delayPending p = false
      /\ (uploadProgress c <= 90)%N)
  /\ (Form.delayPending p = true ->
      isLoading c = true /\ uploadProgress c = 100%N)
  /\ (exists j, (j <= 10)%N /\ uploadProgress c = (10 * j)%N)
  /\ (Form.buttonDisabled c = false ->
      subscribed c = false /\ Form.delayPending p = false).
Proof.
  cbv zeta.
  assert (I : Form.invariant (Form.after actions)).
  { unfold Form.after.
    assert (G : forall p, Form.invariant p ->
                  Form.invariant (fold_left Form.step actions p)).
    { induction actions as [|a actions IH]; intros p Hp; [exact Hp|].
      cbn [fold_left]. apply IH. now apply step_keeps_invariant. }
    apply G. unfold Form.invariant. cbn.
    repeat split; try discriminate. exists 0%N. split; [lia | reflexivity]. }
  destruct I as (I1 & I2 & I3 & I4 & I5).
  split; [exact I1|]. split; [|split; [|split; [exact I5|]]].
  - intros S. destruct (I2 S) as (L & D & j & Hj & E).
    repeat split; auto. rewrite E. lia.
  - intros D. destruct (I3 D) as (L & _ & U). now split.
  - unfold Form.buttonDisabled.
    destruct (selectedFile _); [|discriminate]. apply I4.
Qed.

End PageFacts.
